(** * apifast: a fluent request builder over an HTTP transport

    Shallow embedding of [apifast.go].  The builder is a heap object that the
    setters mutate in place; the terminal verbs prepare one transport request,
    hand it to the transport and turn the outcome into a [Response] or an
    error.  The transport (fasthttp) and the JSON decoder (encoding/json) are
    external collaborators: they are section variables, and every call the
    program makes to them is recorded as an event. *)

From Stdlib Require Import ZArith NArith Lia Bool.
From Stdlib Require Import Ascii String DecimalString.
From Stdlib.Strings Require Import Byte.
From stdpp Require Import gmap list.

Local Open Scope string_scope.

(** ** Go runtime pieces used by the program *)

(** [time.Duration]: a signed count of nanoseconds. *)
Definition Duration : Type := Z.
Bind Scope Z_scope with Duration.

(** [[]byte(s)] and [string(b)]: Go strings are byte sequences. *)
Definition bytes_of_string (s : string) : list byte := list_byte_of_string s.

(** [s != ""] *)
Definition nonEmpty (s : string) : bool :=
  match s with
  | EmptyString => false
  | String _ _ => true
  end.

(** [encoding/base64], [StdEncoding.EncodeToString]: three source bytes are
    packed into a 24-bit value and cut into four 6-bit indices of the
    standard alphabet; a remainder of one or two bytes is padded with '='. *)
Module base64.

Definition encodeStd : string :=
  "ABCDEFGHIJKLMNOPQRSTUVWXYZabcdefghijklmnopqrstuvwxyz0123456789+/".

Definition padChar : ascii := "="%char.

Definition enc (i : N) : ascii :=
  match String.get (N.to_nat i) encodeStd with
  | Some c => c
  | None => padChar
  end.

Definition sextet (val : N) (shift : N) : ascii :=
  enc (N.land (N.shiftr val shift) 63).

Fixpoint EncodeToString (src : list byte) : string :=
  match src with
  | [] => EmptyString
  | [b0] =>
      let val := N.shiftl (Byte.to_N b0) 16 in
      String (sextet val 18) (String (sextet val 12)
        (String padChar (String padChar EmptyString)))
  | [b0; b1] =>
      let val := N.lor (N.shiftl (Byte.to_N b0) 16)
                       (N.shiftl (Byte.to_N b1) 8) in
      String (sextet val 18) (String (sextet val 12)
        (String (sextet val 6) (String padChar EmptyString)))
  | b0 :: b1 :: b2 :: rest =>
      let val := N.lor (N.lor (N.shiftl (Byte.to_N b0) 16)
                              (N.shiftl (Byte.to_N b1) 8))
                       (Byte.to_N b2) in
      String (sextet val 18) (String (sextet val 12)
        (String (sextet val 6) (String (sextet val 0)
          (EncodeToString rest))))
  end.

End base64.

(** Dynamic values stored in an [interface{}] header value, and their
    rendering by [fmt.Sprintf("%v", v)]. *)
Inductive GoValue : Type :=
| VNil
| VString (s : string)
| VInt (n : Z)
| VBool (b : bool)
| VBytes (p : list byte).

Module fmt.

Definition decimal (n : Z) : string := NilZero.string_of_int (Z.to_int n).

Definition decimalN (n : N) : string := decimal (Z.of_N n).

(** elements of a byte slice, separated by one space *)
Fixpoint spaced (p : list byte) : string :=
  match p with
  | [] => EmptyString
  | [b] => decimalN (Byte.to_N b)
  | b :: rest => decimalN (Byte.to_N b) ++ " " ++ spaced rest
  end.

(** [fmt.Sprintf("%v", v)] *)
Definition Sprint (v : GoValue) : string :=
  match v with
  | VNil => "<nil>"
  | VString s => s
  | VInt n => decimal n
  | VBool true => "true"
  | VBool false => "false"
  | VBytes p => "[" ++ spaced p ++ "]"
  end.

End fmt.

(** Go [error] values.  [Errorf] is what [fmt.Errorf] builds from a finished
    message; the other two come back from the collaborators. *)
Inductive error : Type :=
| Errorf (msg : string)
| TransportError (msg : string)
| JSONError (msg : string).

(** [err.Error()], which is also how ["%v"] renders an error. *)
Definition Error (e : error) : string :=
  match e with
  | Errorf msg => msg
  | TransportError msg => msg
  | JSONError msg => msg
  end.

(** [context]: only [Background] and [WithTimeout] are used.  A context with
    a deadline carries a timer; [Err] does not look at the clock, it reads
    the flag that the callback of that timer sets when the runtime gets to
    run it, at some moment not before the deadline.  [timerFired] says whether
    that has happened by the time [Err] is asked.  A deadline that is not in
    the future cancels the context when it is made. *)
Module context.

Inductive Context : Type :=
| Background
| WithTimeout (parent : Context) (timeout : Duration).

Inductive ctxError : Type :=
| DeadlineExceeded
| Canceled.

Fixpoint Deadline (ctx : Context) : option Duration :=
  match ctx with
  | Background => None
  | WithTimeout parent timeout =>
      match Deadline parent with
      | Some d => Some (Z.min d timeout)
      | None => Some timeout
      end
  end.

Definition Err (ctx : Context) (timerFired : bool) : option ctxError :=
  match Deadline ctx with
  | Some d =>
      if (d <=? 0)%Z || timerFired then Some DeadlineExceeded else None
  | None => None
  end.

Definition isDeadlineExceeded (e : option ctxError) : bool :=
  match e with
  | Some DeadlineExceeded => true
  | _ => false
  end.

End context.

(** The transport's objects, as this program drives them.  A request is the
    record of what was called on it: [Header] lists the [Header.Set] calls
    in call order, [body] is [None] until [SetBody] is called. *)
Module fasthttp.

Record Client : Type := mkClient {
  ReadTimeout : Duration;
  WriteTimeout : Duration
}.

Record Request : Type := mkRequest {
  Header : list (string * string);
  RequestURI : string;
  Method : string;
  body : option (list byte)
}.

(** [AcquireRequest()]: a blank request. *)
Definition AcquireRequest : Request :=
  {| Header := []; RequestURI := ""; Method := ""; body := None |}.

(** [req.Header.Set(key, value)] *)
Definition HeaderSet (key value : string) (req : Request) : Request :=
  {| Header := (Header req ++ [(key, value)])%list;
     RequestURI := RequestURI req;
     Method := Method req;
     body := body req |}.

(** [req.SetRequestURI(uri)] *)
Definition SetRequestURI (uri : string) (req : Request) : Request :=
  {| Header := Header req;
     RequestURI := uri;
     Method := Method req;
     body := body req |}.

(** [req.Header.SetMethod(m)] *)
Definition SetMethod (m : string) (req : Request) : Request :=
  {| Header := Header req;
     RequestURI := RequestURI req;
     Method := m;
     body := body req |}.

(** [req.SetBody(p)] *)
Definition SetBody (p : list byte) (req : Request) : Request :=
  {| Header := Header req;
     RequestURI := RequestURI req;
     Method := Method req;
     body := Some p |}.

(** A response as it came off the wire: the status code, the status line
    ("HTTP/1.1 200 OK"), the header lines after it, and the body.  The
    program reads [resp.StatusCode()], [resp.String()] and [resp.Body()]. *)
Record Response : Type := mkResponse {
  StatusCode : Z;
  StatusLine : string;
  HeaderLines : string;
  Body : list byte
}.

Definition CRLF : string := String "013"%char (String "010"%char EmptyString).

(** [resp.String()]: the representation of the whole response, that is the
    status line, the header lines, a blank line and the body. *)
Definition String_ (r : Response) : string :=
  StatusLine r ++ CRLF ++ HeaderLines r ++ CRLF
  ++ string_of_list_byte (Body r).

(** [fasthttp.ErrTimeout] *)
Definition ErrTimeout : error := TransportError "timeout".

(** One [client.DoTimeout(req, resp, timeout)] exchange as the transport
    answers it: the error (or nil), the response it filled in, the time that
    had passed since the program created its context when the call came
    back, and whether by then the runtime had run the callback of the
    context's timer. *)
Record Outcome : Type := mkOutcome {
  err : option error;
  resp : Response;
  elapsed : Duration;
  timerFired : bool
}.

(** [Set] overwrites: the value a header has on the wire is the one of the
    last [Set] call for its name.  The transport compares names after its
    own normalisation [canon]. *)
Section Peek.
Variable canon : string -> string.

Fixpoint Peek (key : string) (h : list (string * string)) : option string :=
  match h with
  | [] => None
  | (k, v) :: h' =>
      match Peek key h' with
      | Some v' => Some v'
      | None => if String.eqb (canon k) (canon key) then Some v else None
      end
  end.
End Peek.

End fasthttp.

(** ** The data model of [apifast.go] *)

Record Header : Type := mkHeader {
  Tag : string;
  Value : GoValue
}.

Record Auth : Type := mkAuth {
  Username : string;
  Password : string;
  Token : string
}.

(** [payload] is [None] for a nil slice; a nil [Headers] slice is [[]]. *)
Module RequestOptions.
Record t : Type := mk {
  Timeout : Duration;
  payload : option (list byte);
  Headers : list Header;
  Auth : Auth
}.
End RequestOptions.

Record Response : Type := mkResponse {
  Code : Z;
  Msg : string;
  Body : list byte
}.

(** Pointers into the heap. *)
Definition ptr : Type := positive.

(** What the program asks of its collaborators, in call order. *)
Inductive Event : Type :=
| DoTimeout (c : fasthttp.Client) (req : fasthttp.Request) (timeout : Duration)
| Unmarshal (source : list byte) (dest : ptr).

(** ** The builder

    [*FastBuilder] values are pointers: the struct lives in the heap, the
    setters update it in place and hand the same pointer back.  A computation
    runs on the heap, may fault (a nil or dangling receiver), and reports
    the calls it made to the collaborators. *)
Module FastBuilder.

Record t : Type := mk {
  method : string;
  url : string;
  options : RequestOptions.t;
  result : option ptr
}.

(** [&FastBuilder{}] *)
Definition zero : t :=
  {| method := ""; url := "";
     options := RequestOptions.mk 0%Z None [] (mkAuth "" "" "");
     result := None |}.

(** lines 128-135: the loop over the configured headers *)
Fixpoint setHeaders (hs : list Header) (req : fasthttp.Request)
  : fasthttp.Request :=
  match hs with
  | [] => req
  | h :: rest =>
      setHeaders rest (fasthttp.HeaderSet (Tag h) (fmt.Sprint (Value h)) req)
  end.

(** lines 137-144: Basic, else Bearer, else nothing *)
Definition setAuth (a : Auth) (req : fasthttp.Request) : fasthttp.Request :=
  if nonEmpty (Username a) && nonEmpty (Password a) then
    let authHeader :=
      "Basic " ++ base64.EncodeToString
                    (bytes_of_string (Username a ++ ":" ++ Password a)) in
    fasthttp.HeaderSet "Authorization" authHeader req
  else if nonEmpty (Token a) then
    let authHeader := "Bearer " ++ Token a in
    fasthttp.HeaderSet "Authorization" authHeader req
  else req.

(** lines 150-153 *)
Definition setPayload (p : option (list byte)) (req : fasthttp.Request)
  : fasthttp.Request :=
  match p with
  | Some bytes => fasthttp.SetBody bytes req
  | None => req
  end.

(** lines 112-120: the context of one call *)
Definition newContext (timeout : Duration) : context.Context :=
  if (0 <? timeout)%Z
  then context.WithTimeout context.Background timeout
  else context.Background.

(** lines 122-126 *)
Definition newClient (timeout : Duration) : fasthttp.Client :=
  {| fasthttp.ReadTimeout := timeout; fasthttp.WriteTimeout := timeout |}.

(** lines 128-153: the request as it stands when it is sent *)
Definition prepare (fb : t) : fasthttp.Request :=
  let req := fasthttp.AcquireRequest in
  let req := setHeaders (RequestOptions.Headers (options fb)) req in
  let req := setAuth (RequestOptions.Auth (options fb)) req in
  let req := fasthttp.SetRequestURI (url fb) req in
  let req := fasthttp.SetMethod (method fb) req in
  setPayload (RequestOptions.payload (options fb)) req.

Section Methods.

(** The type of decode destinations, [json.Unmarshal] on it, and the
    transport's answer to a [DoTimeout] call. *)
Variable Dest : Type.
Variable json_Unmarshal : list byte -> Dest -> Dest * option error.
Variable transport :
  fasthttp.Client -> fasthttp.Request -> Duration -> fasthttp.Outcome.

(** Destinations are objects of their own, apart from the builders and the
    slices they hold: a destination that points into a configured slice is
    not represented. *)
Record State : Type := mkState {
  builders : gmap ptr t;
  dests : gmap ptr Dest
}.

Definition M (A : Type) : Type := State -> option (A * State * list Event).

Definition ret {A} (a : A) : M A := fun st => Some (a, st, []).

Definition bind {A B} (m : M A) (k : A -> M B) : M B :=
  fun st =>
    match m st with
    | None => None
    | Some (a, st1, e1) =>
        match k a st1 with
        | None => None
        | Some (r, st2, e2) => Some (r, st2, (e1 ++ e2)%list)
        end
    end.

Notation "x <- m ;; k" := (bind m (fun x => k))
  (at level 100, m at next level, right associativity).
Notation "m ;;; k" := (bind m (fun _ => k))
  (at level 100, right associativity).

(** [*b], faulting on a pointer that holds no builder *)
Definition load (b : ptr) : M t :=
  fun st =>
    match builders st !! b with
    | Some fb => Some (fb, st, [])
    | None => None
    end.

(** [*b = fb] *)
Definition store (b : ptr) (fb : t) : M unit :=
  fun st => Some (tt, mkState (<[b := fb]> (builders st)) (dests st), []).

(** [Build]: a fresh builder with zero-value configuration *)
Definition Build : M ptr :=
  fun st =>
    let b := fresh (dom (builders st)) in
    Some (b, mkState (<[b := zero]> (builders st)) (dests st), []).

Definition Uri (b : ptr) (u : string) : M ptr :=
  fb <- load b ;;
  store b (mk (method fb) u (options fb) (result fb)) ;;;
  ret b.

Definition Timeout (b : ptr) (timeout : Duration) : M ptr :=
  fb <- load b ;;
  let o := options fb in
  store b (mk (method fb) (url fb)
             (RequestOptions.mk timeout (RequestOptions.payload o)
                (RequestOptions.Headers o) (RequestOptions.Auth o))
             (result fb)) ;;;
  ret b.

Definition Auth (b : ptr) (auth : Auth) : M ptr :=
  fb <- load b ;;
  let o := options fb in
  store b (mk (method fb) (url fb)
             (RequestOptions.mk (RequestOptions.Timeout o)
                (RequestOptions.payload o) (RequestOptions.Headers o) auth)
             (result fb)) ;;;
  ret b.

Definition Headers (b : ptr) (headers : list Header) : M ptr :=
  fb <- load b ;;
  let o := options fb in
  store b (mk (method fb) (url fb)
             (RequestOptions.mk (RequestOptions.Timeout o)
                (RequestOptions.payload o) headers (RequestOptions.Auth o))
             (result fb)) ;;;
  ret b.

Definition Payload (b : ptr) (payload : option (list byte)) : M ptr :=
  fb <- load b ;;
  let o := options fb in
  store b (mk (method fb) (url fb)
             (RequestOptions.mk (RequestOptions.Timeout o) payload
                (RequestOptions.Headers o) (RequestOptions.Auth o))
             (result fb)) ;;;
  ret b.

Definition Result (b : ptr) (r : option ptr) : M ptr :=
  fb <- load b ;;
  store b (mk (method fb) (url fb) (options fb) r) ;;;
  ret b.

(** [client.DoTimeout(req, resp, timeout)] *)
Definition doTimeout (c : fasthttp.Client) (req : fasthttp.Request)
    (timeout : Duration) : M fasthttp.Outcome :=
  fun st => Some (transport c req timeout, st, [DoTimeout c req timeout]).

(** [mapper]: [json.Unmarshal(source, dest)].  A pointer with no
    destination behind it is a nil pointer, which the decoder refuses. *)
Definition mapper (source : list byte) (dest : ptr) : M (option error) :=
  fun st =>
    match dests st !! dest with
    | Some d =>
        let (d', e) := json_Unmarshal source d in
        Some (e, mkState (builders st) (<[dest := d']> (dests st)),
              [Unmarshal source dest])
    | None =>
        Some (Some (JSONError "json: Unmarshal(nil)"), st,
              [Unmarshal source dest])
    end.

Definition makeRequest (b : ptr) : M (option Response * option error) :=
  fb <- load b ;;
  let timeout := RequestOptions.Timeout (options fb) in
  let ctx := newContext timeout in
  let client := newClient timeout in
  let req := prepare fb in
  out <- doTimeout client req timeout ;;
  match fasthttp.err out with
  | Some e =>
      if context.isDeadlineExceeded
           (context.Err ctx (fasthttp.timerFired out))
      then ret (None, Some (Errorf "request timed out"))
      else ret (None, Some (Errorf ("request failed: " ++ Error e)))
  | None =>
      let body := fasthttp.Body (fasthttp.resp out) in
      e <- match result fb with
           | Some dest => mapper body dest
           | None => ret None
           end ;;
      match e with
      | Some e => ret (None, Some e)
      | None =>
          ret (Some {| Code := fasthttp.StatusCode (fasthttp.resp out);
                       Msg := fasthttp.String_ (fasthttp.resp out);
                       Body := body |},
               None)
      end
  end.

Definition setMethod (b : ptr) (m : string) : M unit :=
  fb <- load b ;;
  store b (mk m (url fb) (options fb) (result fb)).

Definition Get (b : ptr) : M (option Response * option error) :=
  setMethod b "GET" ;;; makeRequest b.

Definition Post (b : ptr) : M (option Response * option error) :=
  setMethod b "POST" ;;; makeRequest b.

Definition Patch (b : ptr) : M (option Response * option error) :=
  setMethod b "PATCH" ;;; makeRequest b.

Definition Delete (b : ptr) : M (option Response * option error) :=
  setMethod b "DELETE" ;;; makeRequest b.

(** The transport's answer to the request a builder leads to, and the
    event that records the call. *)
Definition exchange (fb : t) : fasthttp.Outcome :=
  let timeout := RequestOptions.Timeout (options fb) in
  transport (newClient timeout) (prepare fb) timeout.

Definition sent (fb : t) : Event :=
  let timeout := RequestOptions.Timeout (options fb) in
  DoTimeout (newClient timeout) (prepare fb) timeout.

(** lines 179-184: the response value built from the transport's response *)
Definition response_of (out : fasthttp.Outcome) : Response :=
  {| Code := fasthttp.StatusCode (fasthttp.resp out);
     Msg := fasthttp.String_ (fasthttp.resp out);
     Body := fasthttp.Body (fasthttp.resp out) |}.

End Methods.

End FastBuilder.

(** ** A mock server and an integer destination

    A concrete transport and decoder on which the program can be run: the
    destination is an [*int], the decoder reads a JSON number, the server
    answers by request URI. *)
Module Mock.

Definition digit (b : byte) : option Z :=
  let n := Byte.to_N b in
  if ((48 <=? n) && (n <=? 57))%N then Some (Z.of_N n - 48)%Z else None.

Fixpoint number (acc : Z) (p : list byte) : option Z :=
  match p with
  | [] => Some acc
  | b :: rest =>
      match digit b with
      | Some d => number (10 * acc + d)%Z rest
      | None => None
      end
  end.

Definition decodeInt (source : list byte) (d : Z) : Z * option error :=
  match source with
  | [] => (d, Some (JSONError "unexpected end of JSON input"))
  | _ =>
      match number 0%Z source with
      | Some n => (n, None)
      | None => (d, Some (JSONError "invalid character"))
      end
  end.

Definition blank : fasthttp.Response :=
  {| fasthttp.StatusCode := 0; fasthttp.StatusLine := "";
     fasthttp.HeaderLines := ""; fasthttp.Body := [] |}.

Definition server (c : fasthttp.Client) (req : fasthttp.Request)
    (timeout : Duration) : fasthttp.Outcome :=
  let uri := fasthttp.RequestURI req in
  if String.eqb uri "http://mock/item" then
    {| fasthttp.err := None;
       fasthttp.resp :=
         {| fasthttp.StatusCode := 200;
            fasthttp.StatusLine := "HTTP/1.1 200 OK";
            fasthttp.HeaderLines := "Content-Length: 2" ++ fasthttp.CRLF;
            fasthttp.Body := bytes_of_string "42" |};
       fasthttp.elapsed := 1000;
       fasthttp.timerFired := false |}
  else if String.eqb uri "http://mock/text" then
    {| fasthttp.err := None;
       fasthttp.resp :=
         {| fasthttp.StatusCode := 200;
            fasthttp.StatusLine := "HTTP/1.1 200 OK";
            fasthttp.HeaderLines := "Content-Length: 4" ++ fasthttp.CRLF;
            fasthttp.Body := bytes_of_string "oops" |};
       fasthttp.elapsed := 1000;
       fasthttp.timerFired := false |}
  else if String.eqb uri "http://mock/hang" then
    (* the transport gives up at the bound, before the runtime has run the
       callback of the context's timer *)
    {| fasthttp.err := Some fasthttp.ErrTimeout;
       fasthttp.resp := blank;
       fasthttp.elapsed := timeout;
       fasthttp.timerFired := false |}
  else if String.eqb uri "http://mock/stall" then
    (* the same, but the callback has run by the time the call is back *)
    {| fasthttp.err := Some fasthttp.ErrTimeout;
       fasthttp.resp := blank;
       fasthttp.elapsed := timeout + 1000;
       fasthttp.timerFired := true |}
  else
    {| fasthttp.err := Some (TransportError "dial tcp: connection refused");
       fasthttp.resp := blank;
       fasthttp.elapsed := 1000;
       fasthttp.timerFired := false |}.

(** The mock server behind a [DoTimeout] that refuses a bound that is not
    positive, as fasthttp's does. *)
Definition bounded (c : fasthttp.Client) (req : fasthttp.Request)
    (timeout : Duration) : fasthttp.Outcome :=
  if (timeout <=? 0)%Z then
    {| fasthttp.err := Some fasthttp.ErrTimeout;
       fasthttp.resp := blank;
       fasthttp.elapsed := 0;
       fasthttp.timerFired := false |}
  else server c req timeout.

Definition State : Type := FastBuilder.State Z.

Definition makeRequest := FastBuilder.makeRequest Z decodeInt server.

(** a heap with one builder at address 1 and one destination at address 2 *)
Definition heap (fb : FastBuilder.t) : State :=
  FastBuilder.mkState Z {[ 1%positive := fb ]} {[ 2%positive := 0%Z ]}.

Definition builder (u : string) (timeout : Duration) (hs : list Header)
    (a : Auth) (p : option (list byte)) (r : option ptr) : FastBuilder.t :=
  {| FastBuilder.method := "GET";
     FastBuilder.url := u;
     FastBuilder.options := RequestOptions.mk timeout p hs a;
     FastBuilder.result := r |}.

Definition noAuth : Auth := mkAuth "" "" "".

Definition identity (k : string) : string := k.

(** credentials, a token, two headers (one of them named Authorization), a
    payload and a destination *)
Definition full : FastBuilder.t :=
  builder "http://mock/item" 5000000000
    [mkHeader "X-Id" (VInt 7); mkHeader "Authorization" (VString "ApiKey 1")]
    (mkAuth "u" "p" "t") (Some (bytes_of_string "{}")) (Some 2%positive).

(** no Auth value, but an Authorization header among the headers *)
Definition keyInHeaders : FastBuilder.t :=
  builder "http://mock/item" 0
    [mkHeader "Authorization" (VString "ApiKey 1")] noAuth None None.

(** nobody listens; no timeout configured; a destination is supplied *)
Definition refused : FastBuilder.t :=
  builder "http://mock/down" 0 [] noAuth None (Some 2%positive).

(** the server never answers; 50ms timeout *)
Definition hanging : FastBuilder.t :=
  builder "http://mock/hang" 50000000 [] noAuth None None.

(** the same, with the call back after the timer's callback has run *)
Definition stalling : FastBuilder.t :=
  builder "http://mock/stall" 50000000 [] noAuth None None.

(** the server answers with text that is not a JSON number *)
Definition notJSON : FastBuilder.t :=
  builder "http://mock/text" 0 [] (mkAuth "" "" "t") None (Some 2%positive).

End Mock.


Arguments FastBuilder.mkState {Dest} _ _.
Arguments FastBuilder.builders {Dest} _.
Arguments FastBuilder.dests {Dest} _.
Arguments FastBuilder.M _ _ : clear implicits.
Arguments FastBuilder.ret {Dest A} _ _.
Arguments FastBuilder.bind {Dest A B} _ _ _.
Arguments FastBuilder.Build {Dest} _.
Arguments FastBuilder.Uri {Dest} _ _ _.
Arguments FastBuilder.Timeout {Dest} _ _ _.
Arguments FastBuilder.Auth {Dest} _ _ _.
Arguments FastBuilder.Headers {Dest} _ _ _.
Arguments FastBuilder.Payload {Dest} _ _ _.
Arguments FastBuilder.Result {Dest} _ _ _.
Arguments FastBuilder.setMethod {Dest} _ _ _.
Arguments FastBuilder.mapper {Dest} _ _ _ _.
Arguments FastBuilder.makeRequest {Dest} _ _ _ _.
Arguments FastBuilder.Get {Dest} _ _ _ _.
Arguments FastBuilder.Post {Dest} _ _ _ _.
Arguments FastBuilder.Patch {Dest} _ _ _ _.
Arguments FastBuilder.Delete {Dest} _ _ _ _.
Arguments FastBuilder.exchange _ _ : clear implicits.

(** ** Vocabulary of the statements *)

(** A configured header as the loop hands it to the transport. *)
Definition rendered (h : Header) : string * string :=
  (Tag h, fmt.Sprint (Value h)).

(** The decode step ran: some [json.Unmarshal] call is among the events. *)
Definition decode_ran (evs : list Event) : Prop :=
  exists source dest, In (Unmarshal source dest) evs.

(** The outcome [run] of a call dispatched exactly one request: [req], through
    client [c] with bound [t], before anything else it asked for. *)
Definition dispatches {Dest : Type}
    (run : option (option Response * option error
                   * FastBuilder.State Dest * list Event))
    (c : fasthttp.Client) (req : fasthttp.Request) (t : Duration) : Prop :=
  exists r st' tail,
    run = Some (r, st', DoTimeout c req t :: tail)
    /\ forall c' req' t', ~ In (DoTimeout c' req' t') tail.

(** The configured timeout had run out when the transport call came back:
    there is a timeout, and at least that much time has passed. *)
Definition timeout_expired (timeout elapsed : Duration) : Prop :=
  (0 < timeout /\ timeout <= elapsed)%Z.

(** What the auth step sends to [Header.Set]: nothing or one pair. *)
Definition authorization (a : Auth) : list (string * string) :=
  fasthttp.Header (FastBuilder.setAuth a fasthttp.AcquireRequest).

(** The Authorization header of a request fixed by the Auth value alone:
    Basic for a full credential pair, else Bearer for a token, else absent. *)
Definition authorization_by_auth_alone (canon : string -> string) (a : Auth)
    (req : fasthttp.Request) : Prop :=
  let wire := fasthttp.Peek canon "Authorization" (fasthttp.Header req) in
  (Username a <> "" /\ Password a <> "" ->
   wire = Some ("Basic " ++ base64.EncodeToString
                  (bytes_of_string (Username a ++ ":" ++ Password a))))
  /\ (~ (Username a <> "" /\ Password a <> "") -> Token a <> "" ->
      wire = Some ("Bearer " ++ Token a))
  /\ (~ (Username a <> "" /\ Password a <> "") -> Token a = "" ->
      wire = None).

(** The six setters as one family, with the field each one writes. *)
Inductive Field : Type :=
| FMethod | FUrl | FTimeout | FAuth | FHeaders | FPayload | FResult.

Inductive Setter : Type :=
| SetUri (u : string)
| SetTimeout (timeout : Duration)
| SetAuth (auth : Auth)
| SetHeaders (headers : list Header)
| SetPayload (payload : option (list byte))
| SetResult (r : option ptr).

Definition field_of (s : Setter) : Field :=
  match s with
  | SetUri _ => FUrl
  | SetTimeout _ => FTimeout
  | SetAuth _ => FAuth
  | SetHeaders _ => FHeaders
  | SetPayload _ => FPayload
  | SetResult _ => FResult
  end.

Definition call {Dest : Type} (s : Setter) (b : ptr)
  : FastBuilder.M Dest ptr :=
  match s with
  | SetUri u => FastBuilder.Uri b u
  | SetTimeout timeout => FastBuilder.Timeout b timeout
  | SetAuth auth => FastBuilder.Auth b auth
  | SetHeaders headers => FastBuilder.Headers b headers
  | SetPayload payload => FastBuilder.Payload b payload
  | SetResult r => FastBuilder.Result b r
  end.

(** The builder holds the value the setter was given. *)
Definition holds (s : Setter) (fb : FastBuilder.t) : Prop :=
  match s with
  | SetUri u => FastBuilder.url fb = u
  | SetTimeout timeout =>
      RequestOptions.Timeout (FastBuilder.options fb) = timeout
  | SetAuth auth => RequestOptions.Auth (FastBuilder.options fb) = auth
  | SetHeaders headers =>
      RequestOptions.Headers (FastBuilder.options fb) = headers
  | SetPayload payload =>
      RequestOptions.payload (FastBuilder.options fb) = payload
  | SetResult r => FastBuilder.result fb = r
  end.

(** Two builders agree on every field except [f]. *)
Definition same_except (f : Field) (x y : FastBuilder.t) : Prop :=
  (f <> FMethod -> FastBuilder.method x = FastBuilder.method y)
  /\ (f <> FUrl -> FastBuilder.url x = FastBuilder.url y)
  /\ (f <> FTimeout ->
      RequestOptions.Timeout (FastBuilder.options x)
      = RequestOptions.Timeout (FastBuilder.options y))
  /\ (f <> FAuth ->
      RequestOptions.Auth (FastBuilder.options x)
      = RequestOptions.Auth (FastBuilder.options y))
  /\ (f <> FHeaders ->
      RequestOptions.Headers (FastBuilder.options x)
      = RequestOptions.Headers (FastBuilder.options y))
  /\ (f <> FPayload ->
      RequestOptions.payload (FastBuilder.options x)
      = RequestOptions.payload (FastBuilder.options y))
  /\ (f <> FResult -> FastBuilder.result x = FastBuilder.result y).

(** The four terminal verbs as one family, with the method name each one
    stores before it runs [makeRequest]. *)
Inductive Verb : Type :=
| GET | POST | PATCH | DELETE.

Definition verb_name (v : Verb) : string :=
  match v with
  | GET => "GET"
  | POST => "POST"
  | PATCH => "PATCH"
  | DELETE => "DELETE"
  end.

Definition terminal {Dest : Type}
    (json_Unmarshal : list byte -> Dest -> Dest * option error)
    (transport :
       fasthttp.Client -> fasthttp.Request -> Duration -> fasthttp.Outcome)
    (v : Verb) (b : ptr)
  : FastBuilder.M Dest (option Response * option error) :=
  match v with
  | GET => FastBuilder.Get json_Unmarshal transport b
  | POST => FastBuilder.Post json_Unmarshal transport b
  | PATCH => FastBuilder.Patch json_Unmarshal transport b
  | DELETE => FastBuilder.Delete json_Unmarshal transport b
  end.

(** A builder with its method field replaced. *)
Definition with_method (m : string) (fb : FastBuilder.t) : FastBuilder.t :=
  FastBuilder.mk m (FastBuilder.url fb) (FastBuilder.options fb)
    (FastBuilder.result fb).

(** A builder with its Auth value replaced. *)
Definition with_auth (a : Auth) (fb : FastBuilder.t) : FastBuilder.t :=
  FastBuilder.mk (FastBuilder.method fb) (FastBuilder.url fb)
    (RequestOptions.mk
       (RequestOptions.Timeout (FastBuilder.options fb))
       (RequestOptions.payload (FastBuilder.options fb))
       (RequestOptions.Headers (FastBuilder.options fb)) a)
    (FastBuilder.result fb).

(** [Build().Uri(u).Timeout(t).Auth(a).Headers(hs).Payload(p).Result(r)] *)
Definition configure {Dest : Type} (u : string) (timeout : Duration)
    (a : Auth) (hs : list Header) (p : option (list byte)) (r : option ptr)
  : FastBuilder.M Dest ptr :=
  FastBuilder.bind FastBuilder.Build (fun b =>
  FastBuilder.bind (FastBuilder.Uri b u) (fun b =>
  FastBuilder.bind (FastBuilder.Timeout b timeout) (fun b =>
  FastBuilder.bind (FastBuilder.Auth b a) (fun b =>
  FastBuilder.bind (FastBuilder.Headers b hs) (fun b =>
  FastBuilder.bind (FastBuilder.Payload b p) (fun b =>
  FastBuilder.Result b r)))))).

(** Two transports that answer alike except for the status code and the
    rendering of the response. *)
Definition agree_but_status
    (t1 t2 : fasthttp.Client -> fasthttp.Request -> Duration
             -> fasthttp.Outcome) : Prop :=
  forall c req t,
    fasthttp.err (t1 c req t) = fasthttp.err (t2 c req t)
    /\ fasthttp.Body (fasthttp.resp (t1 c req t))
       = fasthttp.Body (fasthttp.resp (t2 c req t))
    /\ fasthttp.elapsed (t1 c req t) = fasthttp.elapsed (t2 c req t)
    /\ fasthttp.timerFired (t1 c req t) = fasthttp.timerFired (t2 c req t).

(** Standard base64 read back: four characters of the alphabet give three
    bytes, a padded last group gives one or two.  This is the reading a
    server applies to a Basic header. *)
Module decode64.

Fixpoint index_from (c : ascii) (s : string) (i : N) : option N :=
  match s with
  | EmptyString => None
  | String c' s' => if Ascii.eqb c c' then Some i else index_from c s' (N.succ i)
  end.

Definition index (c : ascii) : option N := index_from c base64.encodeStd 0.

Definition quad (i0 i1 i2 i3 : N) : N :=
  N.lor (N.lor (N.lor (N.shiftl i0 18) (N.shiftl i1 12)) (N.shiftl i2 6)) i3.

Definition octet (val shift : N) : byte :=
  match Byte.of_N (N.land (N.shiftr val shift) 255) with
  | Some b => b
  | None => "000"%byte
  end.

Definition isEmpty (s : string) : bool :=
  match s with EmptyString => true | _ => false end.

Fixpoint DecodeString (s : string) : option (list byte) :=
  match s with
  | EmptyString => Some []
  | String c0 (String c1 (String c2 (String c3 rest))) =>
      match index c0, index c1, index c2, index c3 with
      | Some i0, Some i1, Some i2, Some i3 =>
          let val := quad i0 i1 i2 i3 in
          match DecodeString rest with
          | Some l => Some (octet val 16 :: octet val 8 :: octet val 0 :: l)
          | None => None
          end
      | Some i0, Some i1, Some i2, None =>
          let val := quad i0 i1 i2 0 in
          if Ascii.eqb c3 base64.padChar && isEmpty rest
          then Some [octet val 16; octet val 8] else None
      | Some i0, Some i1, None, None =>
          let val := quad i0 i1 0 0 in
          if Ascii.eqb c2 base64.padChar && Ascii.eqb c3 base64.padChar
             && isEmpty rest
          then Some [octet val 16] else None
      | _, _, _, _ => None
      end
  | _ => None
  end.

End decode64.

(** The mock server answering every request with status 500 instead. *)
Definition server_500 (c : fasthttp.Client) (req : fasthttp.Request)
    (timeout : Duration) : fasthttp.Outcome :=
  let out := Mock.server c req timeout in
  {| fasthttp.err := fasthttp.err out;
     fasthttp.resp :=
       {| fasthttp.StatusCode := 500;
          fasthttp.StatusLine := "HTTP/1.1 500 Internal Server Error";
          fasthttp.HeaderLines := fasthttp.HeaderLines (fasthttp.resp out);
          fasthttp.Body := fasthttp.Body (fasthttp.resp out) |};
     fasthttp.elapsed := fasthttp.elapsed out;
     fasthttp.timerFired := fasthttp.timerFired out |}.

(** What fasthttp's [DoTimeout] does with a bound that is not positive: it
    returns [ErrTimeout] at once. *)
Definition rejects_nonpositive_bound
    (transport : fasthttp.Client -> fasthttp.Request -> Duration
                 -> fasthttp.Outcome) : Prop :=
  forall c req t,
    (t <= 0)%Z -> fasthttp.err (transport c req t) = Some fasthttp.ErrTimeout.

(** ** Facts about the Go runtime pieces *)

Lemma nonEmpty_true (s : string) : nonEmpty s = true <-> s <> "".
Proof. destruct s; simpl; split; intros H; congruence. Qed.

Lemma nonEmpty_false (s : string) : nonEmpty s = false <-> s = "".
Proof. destruct s; simpl; split; intros H; congruence. Qed.

Section PeekFacts.
Variable canon : string -> string.

Lemma Peek_app (key : string) (h1 h2 : list (string * string)) :
  fasthttp.Peek canon key (h1 ++ h2)%list =
    match fasthttp.Peek canon key h2 with
    | Some v => Some v
    | None => fasthttp.Peek canon key h1
    end.
Proof.
  induction h1 as [|[k v] h1 IH]; simpl.
  - destruct (fasthttp.Peek canon key h2); reflexivity.
  - rewrite IH. destruct (fasthttp.Peek canon key h2); reflexivity.
Qed.

Lemma Peek_last_set (key v : string) (h : list (string * string)) :
  fasthttp.Peek canon key (h ++ [(key, v)])%list = Some v.
Proof. rewrite Peek_app. simpl. rewrite String.eqb_refl. reflexivity. Qed.

Lemma Peek_nothing_set (key : string) (h : list (string * string)) :
  fasthttp.Peek canon key (h ++ [])%list = fasthttp.Peek canon key h.
Proof. rewrite Peek_app. reflexivity. Qed.
End PeekFacts.

(** ** Facts about the request that is prepared *)

Lemma setHeaders_Header (hs : list Header) (req : fasthttp.Request) :
  fasthttp.Header (FastBuilder.setHeaders hs req)
  = (fasthttp.Header req ++ map rendered hs)%list.
Proof.
  revert req. induction hs as [|h hs IH]; intros req; simpl.
  - symmetry. apply app_nil_r.
  - rewrite IH. simpl. rewrite <- app_assoc. reflexivity.
Qed.

Lemma setHeaders_body (hs : list Header) (req : fasthttp.Request) :
  fasthttp.body (FastBuilder.setHeaders hs req) = fasthttp.body req.
Proof.
  revert req. induction hs as [|h hs IH]; intros req; simpl; [reflexivity|].
  rewrite IH. reflexivity.
Qed.

Lemma setAuth_Header (a : Auth) (req : fasthttp.Request) :
  fasthttp.Header (FastBuilder.setAuth a req)
  = (fasthttp.Header req ++ authorization a)%list.
Proof.
  unfold authorization, FastBuilder.setAuth.
  destruct (nonEmpty (Username a) && nonEmpty (Password a)); simpl;
    [reflexivity|].
  destruct (nonEmpty (Token a)); simpl; [reflexivity|].
  symmetry. apply app_nil_r.
Qed.

Lemma setAuth_body (a : Auth) (req : fasthttp.Request) :
  fasthttp.body (FastBuilder.setAuth a req) = fasthttp.body req.
Proof.
  unfold FastBuilder.setAuth.
  destruct (nonEmpty (Username a) && nonEmpty (Password a)); simpl;
    [reflexivity|].
  destruct (nonEmpty (Token a)); reflexivity.
Qed.

Lemma authorization_length (a : Auth) : length (authorization a) <= 1.
Proof.
  unfold authorization, FastBuilder.setAuth.
  destruct (nonEmpty (Username a) && nonEmpty (Password a)); simpl; [lia|].
  destruct (nonEmpty (Token a)); simpl; lia.
Qed.

Lemma prepare_Header (fb : FastBuilder.t) :
  fasthttp.Header (FastBuilder.prepare fb)
  = (map rendered (RequestOptions.Headers (FastBuilder.options fb))
     ++ authorization (RequestOptions.Auth (FastBuilder.options fb)))%list.
Proof.
  unfold FastBuilder.prepare, FastBuilder.setPayload.
  destruct (RequestOptions.payload (FastBuilder.options fb)); simpl;
    rewrite setAuth_Header, setHeaders_Header; reflexivity.
Qed.

Lemma prepare_body (fb : FastBuilder.t) :
  fasthttp.body (FastBuilder.prepare fb)
  = RequestOptions.payload (FastBuilder.options fb).
Proof.
  unfold FastBuilder.prepare, FastBuilder.setPayload.
  destruct (RequestOptions.payload (FastBuilder.options fb)); simpl;
    [reflexivity|].
  rewrite setAuth_body, setHeaders_body. reflexivity.
Qed.

(** ** One call of [makeRequest] *)

Section Dispatch.

Context {Dest : Type}.
Variable json_Unmarshal : list byte -> Dest -> Dest * option error.
Variable transport :
  fasthttp.Client -> fasthttp.Request -> Duration -> fasthttp.Outcome.

Local Abbreviation makeRequest :=
  (FastBuilder.makeRequest json_Unmarshal transport).
Local Abbreviation exchange := (FastBuilder.exchange transport).
Local Abbreviation sent := FastBuilder.sent.
Local Abbreviation response_of := FastBuilder.response_of.
Local Abbreviation State := (FastBuilder.State Dest).

Lemma makeRequest_nil (b : ptr) (st : State) :
  FastBuilder.builders st !! b = None -> makeRequest b st = None.
Proof.
  intros Hb. unfold FastBuilder.makeRequest, FastBuilder.bind, FastBuilder.load.
  rewrite Hb. reflexivity.
Qed.

Lemma makeRequest_transport_error (b : ptr) (st : State) (fb : FastBuilder.t)
    (e : error) :
  FastBuilder.builders st !! b = Some fb ->
  fasthttp.err (exchange fb) = Some e ->
  makeRequest b st =
    Some ((None,
           Some (if context.isDeadlineExceeded
                      (context.Err
                         (FastBuilder.newContext
                            (RequestOptions.Timeout (FastBuilder.options fb)))
                         (fasthttp.timerFired (exchange fb)))
                 then Errorf "request timed out"
                 else Errorf ("request failed: " ++ Error e))),
          st, [sent fb]).
Proof.
  intros Hb He.
  unfold FastBuilder.makeRequest, FastBuilder.bind, FastBuilder.load,
    FastBuilder.doTimeout.
  rewrite Hb. simpl. fold (exchange fb). rewrite He.
  destruct (context.isDeadlineExceeded _); reflexivity.
Qed.

Lemma makeRequest_no_result (b : ptr) (st : State) (fb : FastBuilder.t) :
  FastBuilder.builders st !! b = Some fb ->
  fasthttp.err (exchange fb) = None ->
  FastBuilder.result fb = None ->
  makeRequest b st
  = Some ((Some (response_of (exchange fb)), None), st, [sent fb]).
Proof.
  intros Hb He Hr.
  unfold FastBuilder.makeRequest, FastBuilder.bind, FastBuilder.load,
    FastBuilder.doTimeout.
  rewrite Hb. simpl. fold (exchange fb). rewrite He, Hr. reflexivity.
Qed.

Lemma makeRequest_decode (b : ptr) (st : State) (fb : FastBuilder.t)
    (dest : ptr) :
  FastBuilder.builders st !! b = Some fb ->
  fasthttp.err (exchange fb) = None ->
  FastBuilder.result fb = Some dest ->
  exists e st',
    FastBuilder.mapper json_Unmarshal
      (fasthttp.Body (fasthttp.resp (exchange fb))) dest st
    = Some (e, st',
            [Unmarshal (fasthttp.Body (fasthttp.resp (exchange fb))) dest])
    /\ makeRequest b st
       = Some (match e with
               | Some e => (None, Some e)
               | None => (Some (response_of (exchange fb)), None)
               end,
               st',
               [sent fb;
                Unmarshal (fasthttp.Body (fasthttp.resp (exchange fb))) dest]).
Proof.
  intros Hb He Hr.
  unfold FastBuilder.makeRequest, FastBuilder.bind, FastBuilder.load,
    FastBuilder.doTimeout.
  rewrite Hb. simpl. fold (exchange fb). rewrite He, Hr.
  unfold FastBuilder.mapper.
  destruct (FastBuilder.dests st !! dest) as [d|].
  - destruct (json_Unmarshal _ d) as [d' [e|]];
      eexists; eexists; split; reflexivity.
  - eexists; eexists; split; reflexivity.
Qed.

(** Every call on a live builder comes back, having sent exactly the
    prepared request, first. *)
Lemma makeRequest_sends (b : ptr) (st : State) (fb : FastBuilder.t) :
  FastBuilder.builders st !! b = Some fb ->
  exists r st' tail,
    makeRequest b st = Some (r, st', sent fb :: tail)
    /\ forall c req t, ~ In (DoTimeout c req t) tail.
Proof.
  intros Hb.
  destruct (fasthttp.err (exchange fb)) as [e|] eqn:He.
  - rewrite (makeRequest_transport_error b st fb e Hb He).
    do 3 eexists. split; [reflexivity|]. intros c req t [].
  - destruct (FastBuilder.result fb) as [dest|] eqn:Hr.
    + destruct (makeRequest_decode b st fb dest Hb He Hr)
        as (e & st' & _ & Hrun).
      rewrite Hrun. do 3 eexists. split; [reflexivity|].
      intros c req t [H|[]]. discriminate H.
    + rewrite (makeRequest_no_result b st fb Hb He Hr).
      do 3 eexists. split; [reflexivity|]. intros c req t [].
Qed.

Lemma makeRequest_dispatches (b : ptr) (st : State) (fb : FastBuilder.t) :
  FastBuilder.builders st !! b = Some fb ->
  dispatches (makeRequest b st)
    (FastBuilder.newClient (RequestOptions.Timeout (FastBuilder.options fb)))
    (FastBuilder.prepare fb)
    (RequestOptions.Timeout (FastBuilder.options fb)).
Proof.
  intros Hb.
  destruct (makeRequest_sends b st fb Hb) as (r & st' & tail & Hrun & Hno).
  exists r, st', tail. split; [exact Hrun|exact Hno].
Qed.

Lemma deadline_exceeded_flag (timeout : Duration) (fired : bool) :
  context.isDeadlineExceeded
    (context.Err (FastBuilder.newContext timeout) fired) = true
  <-> (0 < timeout)%Z /\ fired = true.
Proof.
  unfold FastBuilder.newContext, context.Err.
  destruct (0 <? timeout)%Z eqn:Hpos; simpl.
  - apply Z.ltb_lt in Hpos.
    assert (Hle : (timeout <=? 0)%Z = false) by (apply Z.leb_gt; exact Hpos).
    rewrite Hle. simpl. destruct fired; simpl.
    + split; [intros _; split; [exact Hpos|reflexivity]|reflexivity].
    + split; [discriminate|]. intros [_ H]. discriminate H.
  - apply Z.ltb_ge in Hpos. split; [discriminate|]. intros [H _]. lia.
Qed.

Lemma append_longer (s t : string) : t <> "" -> s ++ t <> s.
Proof.
  intros Ht. induction s as [|c s IH].
  - exact Ht.
  - change (String c (s ++ t) <> String c s).
    intros H. injection H as H. exact (IH H).
Qed.

Lemma authorization_cases (a : Auth) :
  (Username a <> "" /\ Password a <> "" ->
   authorization a
   = [("Authorization",
       "Basic " ++ base64.EncodeToString
                     (bytes_of_string (Username a ++ ":" ++ Password a)))])
  /\ (~ (Username a <> "" /\ Password a <> "") -> Token a <> "" ->
      authorization a = [("Authorization", "Bearer " ++ Token a)])
  /\ (~ (Username a <> "" /\ Password a <> "") -> Token a = "" ->
      authorization a = []).
Proof.
  unfold authorization, FastBuilder.setAuth.
  destruct (nonEmpty (Username a)) eqn:Hu;
    destruct (nonEmpty (Password a)) eqn:Hp;
    destruct (nonEmpty (Token a)) eqn:Ht; simpl;
    repeat match goal with
      | H : nonEmpty _ = true |- _ => apply nonEmpty_true in H
      | H : nonEmpty _ = false |- _ => apply nonEmpty_false in H
      end;
    repeat split; intros; try reflexivity; try tauto; try congruence;
    exfalso; tauto.
Qed.

(** C1 (amended). Every call dispatches one request.  On it the auth step
    fixes the Authorization header from the Auth value alone whenever it
    applies a scheme: Basic with the base64 of "username:password" when both
    are non-empty, otherwise Bearer with the token when that is non-empty;
    in both cases this overrides a configured header of that name.
    Otherwise the auth step sets nothing and the header is what the
    configured headers made it (absent when none of them names it).  The
    auth step applies at most one scheme per request. *)
Theorem C1_authorization_header (canon : string -> string)
    (b : ptr) (st : State) (fb : FastBuilder.t) :
  FastBuilder.builders st !! b = Some fb ->
  exists c req t,
    dispatches (makeRequest b st) c req t
    /\ let a := RequestOptions.Auth (FastBuilder.options fb) in
       let configured :=
         map rendered (RequestOptions.Headers (FastBuilder.options fb)) in
       let wire :=
         fasthttp.Peek canon "Authorization" (fasthttp.Header req) in
       (Username a <> "" /\ Password a <> "" ->
        wire = Some ("Basic " ++ base64.EncodeToString
                       (bytes_of_string (Username a ++ ":" ++ Password a))))
       /\ (~ (Username a <> "" /\ Password a <> "") -> Token a <> "" ->
           wire = Some ("Bearer " ++ Token a))
       /\ (~ (Username a <> "" /\ Password a <> "") -> Token a = "" ->
           wire = fasthttp.Peek canon "Authorization" configured)
       /\ (exists applied,
             fasthttp.Header req = (configured ++ applied)%list
             /\ length applied <= 1).
Proof.
  intros Hb.
  do 3 eexists. split; [exact (makeRequest_dispatches b st fb Hb)|].
  intros a configured wire.
  assert (Hh : fasthttp.Header (FastBuilder.prepare fb)
               = (configured ++ authorization a)%list).
  { apply prepare_Header. }
  destruct (authorization_cases a) as (Hbasic & Hbearer & Hnone).
  subst wire. rewrite Hh.
  repeat split.
  - intros H. rewrite (Hbasic H). apply Peek_last_set.
  - intros H1 H2. rewrite (Hbearer H1 H2). apply Peek_last_set.
  - intros H1 H2. rewrite (Hnone H1 H2). apply Peek_nothing_set.
  - exists (authorization a). split; [reflexivity|apply authorization_length].
Qed.

(** C2 (amended). Every call on a live builder returns.  When its transport
    call succeeds, the decode step runs if and only if a result destination
    was supplied (a failed transport call returns before the decode step).
    When it runs and the decoder rejects the body, the call returns that
    decode error and no Response; when the decoder accepts the body, the
    destination holds the decoded value and the call returns the Response
    with no error. *)
Theorem C2_decode_step (b : ptr) (st : State) (fb : FastBuilder.t) :
  FastBuilder.builders st !! b = Some fb ->
  exists r st' evs,
    makeRequest b st = Some (r, st', evs)
    /\ let out := exchange fb in
       let body := fasthttp.Body (fasthttp.resp out) in
       (fasthttp.err out <> None -> ~ decode_ran evs)
       /\ (fasthttp.err out = None ->
           (decode_ran evs <-> FastBuilder.result fb <> None))
       /\ (forall dest d e,
             fasthttp.err out = None ->
             FastBuilder.result fb = Some dest ->
             FastBuilder.dests st !! dest = Some d ->
             snd (json_Unmarshal body d) = Some e ->
             r = (None, Some e))
       /\ (forall dest d,
             fasthttp.err out = None ->
             FastBuilder.result fb = Some dest ->
             FastBuilder.dests st !! dest = Some d ->
             snd (json_Unmarshal body d) = None ->
             FastBuilder.dests st' !! dest
             = Some (fst (json_Unmarshal body d))
             /\ r = (Some (response_of out), None)).
Proof.
  intros Hb.
  destruct (fasthttp.err (exchange fb)) as [e0|] eqn:He.
  - do 3 eexists.
    split; [exact (makeRequest_transport_error b st fb e0 Hb He)|].
    intros out body.
    assert (Hout : fasthttp.err out = Some e0) by exact He. rewrite Hout.
    repeat split; try discriminate.
    intros _ (source & dest & [H|[]]). discriminate H.
  - destruct (FastBuilder.result fb) as [dest0|] eqn:Hr.
    + destruct (makeRequest_decode b st fb dest0 Hb He Hr)
        as (e & st1 & Hmap & Hrun1).
      do 3 eexists. split; [exact Hrun1|].
      intros out body.
      assert (Hout : fasthttp.err out = None) by exact He. rewrite Hout.
      split; [intros H; congruence|].
      split.
      { intros _. split; [discriminate|]. intros _.
        exists body, dest0. right. left. reflexivity. }
      unfold FastBuilder.mapper in Hmap.
      split.
      * intros dest d e1 _ Hd Hlive Hbad. injection Hd as <-.
        fold out body in Hmap. rewrite Hlive in Hmap.
        destruct (json_Unmarshal body d) as [d' e2]. simpl in Hbad. subst e2.
        injection Hmap as <- _. reflexivity.
      * intros dest d _ Hd Hlive Hgood. injection Hd as <-.
        fold out body in Hmap. rewrite Hlive in Hmap.
        destruct (json_Unmarshal body d) as [d' e2]. simpl in Hgood. subst e2.
        injection Hmap as <- <-. simpl.
        split; [apply lookup_insert_eq|reflexivity].
    + do 3 eexists.
      split; [exact (makeRequest_no_result b st fb Hb He Hr)|].
      intros out body.
      assert (Hout : fasthttp.err out = None) by exact He. rewrite Hout.
      split; [intros H; congruence|].
      split.
      { intros _. split.
        - intros (source & dest & [H|[]]). discriminate H.
        - intros H. congruence. }
      split; intros; discriminate.
Qed.

(** C3 (code bug). The error of a failed transport call is classified by the
    flag of a context that the transport call never sees, not by the
    failure: when the transport gives up after the configured timeout has
    run out but the callback of the context's timer has not run yet, the
    call returns the generic failure error and not the timeout error. *)
Theorem C3_timeout_reported_as_failure (b : ptr) (st : State)
    (fb : FastBuilder.t) (e : error) :
  FastBuilder.builders st !! b = Some fb ->
  fasthttp.err (exchange fb) = Some e ->
  timeout_expired (RequestOptions.Timeout (FastBuilder.options fb))
    (fasthttp.elapsed (exchange fb)) ->
  fasthttp.timerFired (exchange fb) = false ->
  makeRequest b st
  = Some ((None, Some (Errorf ("request failed: " ++ Error e))), st, [sent fb])
  /\ Errorf ("request failed: " ++ Error e) <> Errorf "request timed out".
Proof.
  intros Hb He _ Hflag.
  rewrite (makeRequest_transport_error b st fb e Hb He).
  rewrite Hflag.
  destruct (context.isDeadlineExceeded _) eqn:Hx.
  - apply deadline_exceeded_flag in Hx. destruct Hx as [_ H]. discriminate H.
  - split; [reflexivity|discriminate].
Qed.

(** C4 (code bug). With no timeout configured the call still goes through
    [DoTimeout], with a zero bound and a zero-value client, and the context
    without a deadline is never handed over.  A transport that refuses a
    bound that is not positive, as fasthttp's [DoTimeout] does, therefore
    fails every such call at once with its timeout error, which comes back
    as the generic failure error: the request is not executed at all. *)
Theorem C4_no_timeout_fails_at_once (b : ptr) (st : State)
    (fb : FastBuilder.t) :
  FastBuilder.builders st !! b = Some fb ->
  RequestOptions.Timeout (FastBuilder.options fb) = 0%Z ->
  rejects_nonpositive_bound transport ->
  makeRequest b st
  = Some ((None, Some (Errorf "request failed: timeout")), st,
          [DoTimeout
             {| fasthttp.ReadTimeout := 0; fasthttp.WriteTimeout := 0 |}
             (FastBuilder.prepare fb) 0]).
Proof.
  intros Hb H0 Hrej.
  assert (He : fasthttp.err (exchange fb) = Some fasthttp.ErrTimeout).
  { unfold FastBuilder.exchange. apply Hrej. rewrite H0. reflexivity. }
  rewrite (makeRequest_transport_error b st fb _ Hb He).
  unfold FastBuilder.sent. rewrite H0. reflexivity.
Qed.

(** C5. Every call dispatches one request, and its body is the configured
    payload, byte for byte, when the payload is non-nil; no body is attached
    when the payload is nil. *)
Theorem C5_request_body (b : ptr) (st : State) (fb : FastBuilder.t) :
  FastBuilder.builders st !! b = Some fb ->
  exists c req t,
    dispatches (makeRequest b st) c req t
    /\ (forall p, RequestOptions.payload (FastBuilder.options fb) = Some p ->
                  fasthttp.body req = Some p)
    /\ (RequestOptions.payload (FastBuilder.options fb) = None ->
        fasthttp.body req = None).
Proof.
  intros Hb.
  do 3 eexists. split; [exact (makeRequest_dispatches b st fb Hb)|].
  rewrite prepare_body.
  split; [intros p H|intros H]; exact H.
Qed.

(** C6 (code bug). A call succeeds when the transport call succeeds and the
    decoder, if a destination was supplied, accepts the body; it then
    returns a Response and no error.  The Response carries the status code
    as Code and the body bytes as Body, but its Msg is [resp.String()], the
    whole response (status line, header lines, blank line, body): it is
    never the status line alone. *)
Theorem C6_msg_is_whole_response (b : ptr) (st : State)
    (fb : FastBuilder.t) :
  FastBuilder.builders st !! b = Some fb ->
  let answer := fasthttp.resp (exchange fb) in
  (fasthttp.err (exchange fb) = None ->
   (forall dest, FastBuilder.result fb = Some dest ->
      exists d, FastBuilder.dests st !! dest = Some d
                /\ snd (json_Unmarshal (fasthttp.Body answer) d) = None) ->
   exists resp st' evs,
     makeRequest b st = Some ((Some resp, None), st', evs))
  /\ (forall resp oe st' evs,
        makeRequest b st = Some ((Some resp, oe), st', evs) ->
        oe = None
        /\ fasthttp.err (exchange fb) = None
        /\ Code resp = fasthttp.StatusCode answer
        /\ Body resp = fasthttp.Body answer
        /\ Msg resp
           = fasthttp.StatusLine answer ++ fasthttp.CRLF
             ++ fasthttp.HeaderLines answer ++ fasthttp.CRLF
             ++ string_of_list_byte (fasthttp.Body answer)
        /\ Msg resp <> fasthttp.StatusLine answer).
Proof.
  intros Hb answer. split.
  - intros He Hdec.
    destruct (FastBuilder.result fb) as [dest0|] eqn:Hr.
    + destruct (Hdec dest0 eq_refl) as (d & Hlive & Hgood).
      unfold FastBuilder.makeRequest, FastBuilder.bind, FastBuilder.load,
        FastBuilder.doTimeout, FastBuilder.mapper.
      rewrite Hb. simpl. fold (exchange fb). rewrite He, Hr, Hlive.
      fold answer. destruct (json_Unmarshal (fasthttp.Body answer) d)
        as [d' e]. simpl in Hgood. subst e. simpl.
      do 3 eexists. reflexivity.
    + rewrite (makeRequest_no_result b st fb Hb He Hr).
      do 3 eexists. reflexivity.
  - intros resp oe st' evs Hrun.
    assert (Hshape : oe = None /\ fasthttp.err (exchange fb) = None
                     /\ resp = response_of (exchange fb)).
    { destruct (fasthttp.err (exchange fb)) as [e0|] eqn:He.
      - rewrite (makeRequest_transport_error b st fb e0 Hb He) in Hrun.
        discriminate Hrun.
      - destruct (FastBuilder.result fb) as [dest0|] eqn:Hr.
        + destruct (makeRequest_decode b st fb dest0 Hb He Hr)
            as ([e|] & st1 & _ & Hrun1); rewrite Hrun1 in Hrun;
            [discriminate Hrun|].
          injection Hrun as <- <- _ _. repeat split.
        + rewrite (makeRequest_no_result b st fb Hb He Hr) in Hrun.
          injection Hrun as <- <- _ _. repeat split. }
    destruct Hshape as (Hoe & He & ->).
    split; [exact Hoe|]. split; [exact He|].
    split; [reflexivity|]. split; [reflexivity|].
    split; [reflexivity|].
    apply append_longer. discriminate.
Qed.

(** C7. Every call dispatches one request, and the header calls made on it
    start with the configured headers, one call per header in the order of
    the sequence, each with the tag and the string rendering of the value. *)
Theorem C7_headers_in_order (b : ptr) (st : State) (fb : FastBuilder.t) :
  FastBuilder.builders st !! b = Some fb ->
  exists c req t,
    dispatches (makeRequest b st) c req t
    /\ let hs := RequestOptions.Headers (FastBuilder.options fb) in
       firstn (length hs) (fasthttp.Header req)
       = map (fun h => (Tag h, fmt.Sprint (Value h))) hs
       /\ (forall i h, hs !! i = Some h ->
             fasthttp.Header req !! i = Some (Tag h, fmt.Sprint (Value h))).
Proof.
  intros Hb.
  do 3 eexists. split; [exact (makeRequest_dispatches b st fb Hb)|].
  intros hs. rewrite prepare_Header. fold hs.
  split.
  - rewrite <- (length_map rendered hs). rewrite firstn_app, Nat.sub_diag.
    simpl. rewrite firstn_all, app_nil_r. reflexivity.
  - intros i h Hi. apply lookup_app_l_Some.
    rewrite list_lookup_fmap, Hi. reflexivity.
Qed.

(** C10. With no timeout configured (zero), a failing transport call is
    never reported as a timeout: the call returns the generic failure error
    that wraps the transport's message, whatever time has passed, because the
    context that is asked has no deadline. *)
Theorem C10_no_timeout_no_timeout_error (b : ptr) (st : State)
    (fb : FastBuilder.t) (e : error) :
  FastBuilder.builders st !! b = Some fb ->
  RequestOptions.Timeout (FastBuilder.options fb) = 0%Z ->
  fasthttp.err (exchange fb) = Some e ->
  makeRequest b st
  = Some ((None, Some (Errorf ("request failed: " ++ Error e))), st, [sent fb])
  /\ Errorf ("request failed: " ++ Error e) <> Errorf "request timed out"
  /\ context.Deadline
       (FastBuilder.newContext
          (RequestOptions.Timeout (FastBuilder.options fb))) = None.
Proof.
  intros Hb H0 He.
  rewrite (makeRequest_transport_error b st fb e Hb He).
  rewrite H0. split; [reflexivity|]. split; [discriminate|reflexivity].
Qed.

End Dispatch.

(** ** The setters *)

Section Setters.

Context {Dest : Type}.

Local Abbreviation State := (FastBuilder.State Dest).

Lemma call_live (s : Setter) (b : ptr) (st : State) (fb : FastBuilder.t) :
  FastBuilder.builders st !! b = Some fb ->
  exists fb',
    call s b st
    = Some (b,
            FastBuilder.mkState (<[b := fb']> (FastBuilder.builders st))
              (FastBuilder.dests st),
            [])
    /\ holds s fb'
    /\ same_except (field_of s) fb fb'.
Proof.
  intros Hb.
  destruct s; simpl;
    unfold FastBuilder.Uri, FastBuilder.Timeout, FastBuilder.Auth,
      FastBuilder.Headers, FastBuilder.Payload, FastBuilder.Result,
      FastBuilder.bind, FastBuilder.load, FastBuilder.store, FastBuilder.ret;
    rewrite Hb; simpl;
    eexists; (split; [reflexivity|]); simpl;
    (split; [reflexivity|]);
    unfold same_except; simpl; repeat split; intros; congruence.
Qed.

Lemma call_nil (s : Setter) (b : ptr) (st : State) :
  FastBuilder.builders st !! b = None -> call s b st = None.
Proof.
  intros Hb.
  destruct s; simpl;
    unfold FastBuilder.Uri, FastBuilder.Timeout, FastBuilder.Auth,
      FastBuilder.Headers, FastBuilder.Payload, FastBuilder.Result,
      FastBuilder.bind, FastBuilder.load;
    rewrite Hb; reflexivity.
Qed.

(** C8. Every setter returns the pointer it was called on and makes no call
    to the transport or the decoder; in the heap only the builder behind
    that pointer changes, and in that builder only the setter's own field:
    it holds the given value and every other field is as before. *)
Theorem C8_setter_frame (s : Setter) (b : ptr) (st : State)
    (fb : FastBuilder.t) :
  FastBuilder.builders st !! b = Some fb ->
  exists fb' st',
    call s b st = Some (b, st', [])
    /\ FastBuilder.builders st' !! b = Some fb'
    /\ holds s fb'
    /\ same_except (field_of s) fb fb'
    /\ (forall b', b' <> b ->
          FastBuilder.builders st' !! b' = FastBuilder.builders st !! b')
    /\ FastBuilder.dests st' = FastBuilder.dests st.
Proof.
  intros Hb.
  destruct (call_live s b st fb Hb) as (fb' & Hcall & Hholds & Hsame).
  exists fb'. eexists. split; [exact Hcall|]. simpl.
  split; [apply lookup_insert_eq|].
  split; [exact Hholds|].
  split; [exact Hsame|].
  split; [|reflexivity].
  intros b' Hne. apply lookup_insert_ne. congruence.
Qed.

(** C9. Setters are last-write-wins: calling a setter and then, on the
    returned pointer, the same setter again leaves the heap as the second
    call alone does; with the same value twice that is the single call.
    Headers replaces the configured sequence, it does not append to it. *)
Theorem C9_last_write_wins (s1 s2 : Setter) (b : ptr) (st : State) :
  field_of s1 = field_of s2 ->
  FastBuilder.bind (call s1 b) (fun b' => call s2 b') st = call s2 b st
  /\ FastBuilder.bind (call s2 b) (fun b' => call s2 b') st = call s2 b st
  /\ (forall h1 h2 fb,
        s1 = SetHeaders h1 -> s2 = SetHeaders h2 ->
        FastBuilder.builders st !! b = Some fb ->
        exists fb' st',
          FastBuilder.bind (call s1 b) (fun b' => call s2 b') st
          = Some (b, st', [])
          /\ FastBuilder.builders st' !! b = Some fb'
          /\ RequestOptions.Headers (FastBuilder.options fb') = h2).
Proof.
  intros Hf.
  assert (Hlww : forall t1 t2 : Setter, field_of t1 = field_of t2 ->
            FastBuilder.bind (call t1 b) (fun b' => call t2 b') st
            = call t2 b st).
  { intros t1 t2 Ht.
    destruct (FastBuilder.builders st !! b) as [fb|] eqn:Hb.
    - destruct t1, t2; try discriminate Ht; simpl;
        unfold FastBuilder.Uri, FastBuilder.Timeout, FastBuilder.Auth,
          FastBuilder.Headers, FastBuilder.Payload, FastBuilder.Result,
          FastBuilder.bind, FastBuilder.load, FastBuilder.store,
          FastBuilder.ret;
        rewrite Hb; simpl; rewrite lookup_insert_eq; simpl;
        rewrite insert_insert_eq; reflexivity.
    - unfold FastBuilder.bind. rewrite (call_nil t1 b st Hb).
      rewrite (call_nil t2 b st Hb). reflexivity. }
  split; [apply Hlww; exact Hf|].
  split; [apply Hlww; reflexivity|].
  intros h1 h2 fb -> -> Hb.
  rewrite (Hlww (SetHeaders h1) (SetHeaders h2) eq_refl).
  destruct (call_live (SetHeaders h2) b st fb Hb) as (fb' & Hcall & Hholds & _).
  exists fb'. eexists. split; [exact Hcall|]. simpl.
  split; [apply lookup_insert_eq|exact Hholds].
Qed.

End Setters.
Example base64_u_p :
  base64.EncodeToString (bytes_of_string "u:p") = "dTpw".
Proof. reflexivity. Qed.

Example base64_padding :
  base64.EncodeToString (bytes_of_string "user:pass") = "dXNlcjpwYXNz"
  /\ base64.EncodeToString (bytes_of_string "ab") = "YWI="
  /\ base64.EncodeToString (bytes_of_string "a") = "YQ==".
Proof. repeat split; reflexivity. Qed.

Example sprint_values :
  fmt.Sprint (VInt 42) = "42" /\ fmt.Sprint (VInt (-7)) = "-7"
  /\ fmt.Sprint (VInt 0) = "0" /\ fmt.Sprint VNil = "<nil>"
  /\ fmt.Sprint (VBytes (bytes_of_string "hi")) = "[104 105]"
  /\ fmt.Sprint (VString "application/json") = "application/json".
Proof. repeat split; reflexivity. Qed.

(** ** The program on the mock server *)

(** 200 with body 42 and an [*int] destination: the destination is
    populated and the response carries the status code. *)
Example mock_decodes :
  exists resp st' evs,
    Mock.makeRequest 1%positive (Mock.heap Mock.full)
    = Some ((Some resp, None), st', evs)
    /\ Code resp = 200%Z
    /\ FastBuilder.dests st' !! 2%positive = Some 42%Z.
Proof. do 3 eexists. split; [reflexivity|]. split; reflexivity. Qed.

(** a server that never answers, 50ms timeout: the timeout error when the
    callback of the context's timer has run by the time the call is back,
    the generic error when it has not *)
Example mock_times_out :
  exists st' evs,
    Mock.makeRequest 1%positive (Mock.heap Mock.stalling)
    = Some ((None, Some (Errorf "request timed out")), st', evs).
Proof. do 2 eexists. reflexivity. Qed.

Example mock_timeout_missed :
  exists st' evs,
    Mock.makeRequest 1%positive (Mock.heap Mock.hanging)
    = Some ((None, Some (Errorf "request failed: timeout")), st', evs).
Proof. do 2 eexists. reflexivity. Qed.

(** the payload reaches the transport as it was given *)
Example mock_payload :
  fasthttp.body (FastBuilder.prepare Mock.full)
  = Some (bytes_of_string "{}").
Proof. reflexivity. Qed.

(** fluent chaining from [Build] on an empty heap *)
Example mock_chain :
  exists b st' resp,
    FastBuilder.bind FastBuilder.Build (fun b =>
      FastBuilder.bind (FastBuilder.Uri b "http://mock/item") (fun b =>
        FastBuilder.bind (FastBuilder.Auth b (mkAuth "" "" "t")) (fun b =>
          FastBuilder.bind (FastBuilder.Get Mock.decodeInt Mock.server b)
            (fun r => FastBuilder.ret (b, r)))))
      (FastBuilder.mkState (∅ : gmap ptr FastBuilder.t) (∅ : gmap ptr Z))
    = Some ((b, (Some resp, None)), st',
            [DoTimeout (FastBuilder.newClient 0)
               {| fasthttp.Header := [("Authorization", "Bearer t")];
                  fasthttp.RequestURI := "http://mock/item";
                  fasthttp.Method := "GET";
                  fasthttp.body := None |} 0]).
Proof. do 3 eexists. vm_compute. reflexivity. Qed.

(** Each verb stores its method name in the builder and runs [makeRequest]
    on it: what holds of [makeRequest] holds of the four verbs. *)
Lemma verbs_make_request {Dest : Type}
    (json_Unmarshal : list byte -> Dest -> Dest * option error)
    (transport :
       fasthttp.Client -> fasthttp.Request -> Duration -> fasthttp.Outcome)
    (b : ptr) :
  FastBuilder.Get json_Unmarshal transport b
  = FastBuilder.bind (FastBuilder.setMethod b "GET")
      (fun _ => FastBuilder.makeRequest json_Unmarshal transport b)
  /\ FastBuilder.Post json_Unmarshal transport b
     = FastBuilder.bind (FastBuilder.setMethod b "POST")
         (fun _ => FastBuilder.makeRequest json_Unmarshal transport b)
  /\ FastBuilder.Patch json_Unmarshal transport b
     = FastBuilder.bind (FastBuilder.setMethod b "PATCH")
         (fun _ => FastBuilder.makeRequest json_Unmarshal transport b)
  /\ FastBuilder.Delete json_Unmarshal transport b
     = FastBuilder.bind (FastBuilder.setMethod b "DELETE")
         (fun _ => FastBuilder.makeRequest json_Unmarshal transport b).
Proof. repeat split. Qed.

(** ** Concrete runs on the mock server *)

(** C1 as stated fails: with no Auth value configured, a configured header
    named Authorization is on the dispatched request. *)
Lemma C1_counterexample :
  ~ (forall (b : ptr) (st : Mock.State) (fb : FastBuilder.t)
       (c : fasthttp.Client) (req : fasthttp.Request) (t : Duration),
       FastBuilder.builders st !! b = Some fb ->
       dispatches (Mock.makeRequest b st) c req t ->
       authorization_by_auth_alone Mock.identity
         (RequestOptions.Auth (FastBuilder.options fb)) req).
Proof.
  intros H.
  assert (Hd : dispatches
                 (Mock.makeRequest 1%positive (Mock.heap Mock.keyInHeaders))
                 (FastBuilder.newClient 0)
                 (FastBuilder.prepare Mock.keyInHeaders) 0).
  { do 3 eexists. split; [reflexivity|]. intros c req t []. }
  specialize (H 1%positive (Mock.heap Mock.keyInHeaders) Mock.keyInHeaders
                _ _ _ eq_refl Hd).
  destruct H as (_ & _ & Hnone).
  assert (Hwire : Some "ApiKey 1" = None).
  { apply Hnone; [|reflexivity]. intros [Hu _]. apply Hu. reflexivity. }
  discriminate Hwire.
Qed.

Lemma C1_authorization_header_witness :
  FastBuilder.builders (Mock.heap Mock.full) !! 1%positive = Some Mock.full
  /\ (Username (RequestOptions.Auth (FastBuilder.options Mock.full)) <> ""
      /\ Password (RequestOptions.Auth (FastBuilder.options Mock.full)) <> "")
  /\ exists c req t,
       dispatches (Mock.makeRequest 1%positive (Mock.heap Mock.full)) c req t
       /\ fasthttp.Peek Mock.identity "Authorization" (fasthttp.Header req)
          = Some "Basic dTpw".
Proof.
  split; [reflexivity|].
  split; [split; discriminate|].
  destruct (C1_authorization_header Mock.decodeInt Mock.server Mock.identity
              1%positive (Mock.heap Mock.full) Mock.full eq_refl)
    as (c & req & t & Hd & Hbasic & _).
  exists c, req, t. split; [exact Hd|].
  apply Hbasic. split; discriminate.
Defined.

(** C2 as stated fails: a destination is supplied, the transport call
    fails, and the decode step does not run. *)
Lemma C2_counterexample :
  ~ (forall (b : ptr) (st st' : Mock.State) (fb : FastBuilder.t)
       (r : option Response * option error) (evs : list Event),
       FastBuilder.builders st !! b = Some fb ->
       Mock.makeRequest b st = Some (r, st', evs) ->
       (decode_ran evs <-> FastBuilder.result fb <> None)).
Proof.
  intros H.
  specialize (H 1%positive (Mock.heap Mock.refused) _ Mock.refused
                _ _ eq_refl eq_refl).
  destruct H as [_ Hran].
  destruct Hran as (source & dest & Hin); [discriminate|].
  destruct Hin as [Hev|[]]. discriminate Hev.
Qed.

Lemma C2_decode_step_witness :
  FastBuilder.builders (Mock.heap Mock.full) !! 1%positive = Some Mock.full
  /\ FastBuilder.result Mock.full = Some 2%positive
  /\ FastBuilder.dests (Mock.heap Mock.full) !! 2%positive = Some 0%Z
  /\ (exists st' evs,
        Mock.makeRequest 1%positive (Mock.heap Mock.full)
        = Some ((Some (FastBuilder.response_of
                         (FastBuilder.exchange Mock.server Mock.full)),
                 None), st', evs)
        /\ FastBuilder.dests st' !! 2%positive = Some 42%Z)
  /\ (exists st' evs,
        Mock.makeRequest 1%positive (Mock.heap Mock.notJSON)
        = Some ((None, Some (JSONError "invalid character")), st', evs)).
Proof.
  split; [reflexivity|]. split; [reflexivity|]. split; [reflexivity|]. split.
  - destruct (C2_decode_step Mock.decodeInt Mock.server 1%positive
                (Mock.heap Mock.full) Mock.full eq_refl)
      as (r & st' & evs & Hrun & _ & _ & _ & Hgood).
    destruct (Hgood 2%positive 0%Z eq_refl eq_refl eq_refl eq_refl)
      as [Hdest Hr].
    exists st', evs. split; [|exact Hdest].
    unfold Mock.makeRequest. rewrite Hrun, Hr. reflexivity.
  - destruct (C2_decode_step Mock.decodeInt Mock.server 1%positive
                (Mock.heap Mock.notJSON) Mock.notJSON eq_refl)
      as (r & st' & evs & Hrun & _ & _ & Hbad & _).
    exists st', evs. unfold Mock.makeRequest. rewrite Hrun.
    rewrite (Hbad 2%positive 0%Z (JSONError "invalid character")
               eq_refl eq_refl eq_refl eq_refl).
    reflexivity.
Defined.

Lemma C3_timeout_reported_as_failure_witness :
  FastBuilder.builders (Mock.heap Mock.hanging) !! 1%positive
  = Some Mock.hanging
  /\ fasthttp.err (FastBuilder.exchange Mock.server Mock.hanging)
     = Some fasthttp.ErrTimeout
  /\ timeout_expired 50000000 50000000
  /\ fasthttp.timerFired (FastBuilder.exchange Mock.server Mock.hanging)
     = false
  /\ Mock.makeRequest 1%positive (Mock.heap Mock.hanging)
     = Some ((None, Some (Errorf "request failed: timeout")),
             Mock.heap Mock.hanging, [FastBuilder.sent Mock.hanging]).
Proof.
  assert (Hexp : timeout_expired 50000000 50000000).
  { split; [reflexivity|]. intros H. discriminate H. }
  split; [reflexivity|]. split; [reflexivity|].
  split; [exact Hexp|]. split; [reflexivity|].
  exact (proj1 (C3_timeout_reported_as_failure Mock.decodeInt Mock.server
                  1%positive (Mock.heap Mock.hanging) Mock.hanging
                  fasthttp.ErrTimeout eq_refl eq_refl Hexp eq_refl)).
Defined.

Lemma C4_no_timeout_fails_at_once_witness :
  FastBuilder.builders (Mock.heap Mock.keyInHeaders) !! 1%positive
  = Some Mock.keyInHeaders
  /\ RequestOptions.Timeout (FastBuilder.options Mock.keyInHeaders) = 0%Z
  /\ rejects_nonpositive_bound Mock.bounded
  /\ FastBuilder.makeRequest Mock.decodeInt Mock.bounded 1%positive
       (Mock.heap Mock.keyInHeaders)
     = Some ((None, Some (Errorf "request failed: timeout")),
             Mock.heap Mock.keyInHeaders,
             [DoTimeout
                {| fasthttp.ReadTimeout := 0; fasthttp.WriteTimeout := 0 |}
                (FastBuilder.prepare Mock.keyInHeaders) 0]).
Proof.
  assert (Hrej : rejects_nonpositive_bound Mock.bounded).
  { intros c req t Ht. unfold Mock.bounded.
    apply Z.leb_le in Ht. rewrite Ht. reflexivity. }
  split; [reflexivity|]. split; [reflexivity|]. split; [exact Hrej|].
  exact (C4_no_timeout_fails_at_once Mock.decodeInt Mock.bounded 1%positive
           (Mock.heap Mock.keyInHeaders) Mock.keyInHeaders
           eq_refl eq_refl Hrej).
Defined.

Lemma C5_request_body_witness :
  FastBuilder.builders (Mock.heap Mock.full) !! 1%positive = Some Mock.full
  /\ RequestOptions.payload (FastBuilder.options Mock.full)
     = Some (bytes_of_string "{}")
  /\ exists c req t,
       dispatches (Mock.makeRequest 1%positive (Mock.heap Mock.full)) c req t
       /\ fasthttp.body req = Some (bytes_of_string "{}").
Proof.
  split; [reflexivity|]. split; [reflexivity|].
  destruct (C5_request_body Mock.decodeInt Mock.server 1%positive
              (Mock.heap Mock.full) Mock.full eq_refl)
    as (c & req & t & Hd & Hsome & _).
  exists c, req, t. split; [exact Hd|].
  exact (Hsome _ eq_refl).
Defined.

Lemma C6_msg_is_whole_response_witness :
  FastBuilder.builders (Mock.heap Mock.full) !! 1%positive = Some Mock.full
  /\ fasthttp.err (FastBuilder.exchange Mock.server Mock.full) = None
  /\ exists resp st' evs,
       Mock.makeRequest 1%positive (Mock.heap Mock.full)
       = Some ((Some resp, None), st', evs)
       /\ Code resp = 200%Z
       /\ Body resp = bytes_of_string "42"
       /\ Msg resp
          = "HTTP/1.1 200 OK" ++ fasthttp.CRLF
            ++ "Content-Length: 2" ++ fasthttp.CRLF ++ fasthttp.CRLF ++ "42"
       /\ Msg resp <> "HTTP/1.1 200 OK".
Proof.
  split; [reflexivity|]. split; [reflexivity|].
  destruct (C6_msg_is_whole_response Mock.decodeInt Mock.server 1%positive
              (Mock.heap Mock.full) Mock.full eq_refl)
    as (Hreturns & Hcarries).
  destruct (Hreturns eq_refl) as (resp & st' & evs & Hrun).
  { intros dest Hdest. injection Hdest as <-.
    exists 0%Z. split; reflexivity. }
  exists resp, st', evs. split; [exact Hrun|].
  destruct (Hcarries resp None st' evs Hrun)
    as (_ & _ & Hcode & Hbody & Hmsg & Hne).
  split; [exact Hcode|]. split; [exact Hbody|].
  split; [exact Hmsg|exact Hne].
Defined.

Lemma C7_headers_in_order_witness :
  FastBuilder.builders (Mock.heap Mock.full) !! 1%positive = Some Mock.full
  /\ exists c req t,
       dispatches (Mock.makeRequest 1%positive (Mock.heap Mock.full)) c req t
       /\ firstn 2 (fasthttp.Header req)
          = [("X-Id", "7"); ("Authorization", "ApiKey 1")].
Proof.
  split; [reflexivity|].
  destruct (C7_headers_in_order Mock.decodeInt Mock.server 1%positive
              (Mock.heap Mock.full) Mock.full eq_refl)
    as (c & req & t & Hd & Hfirst & _).
  exists c, req, t. split; [exact Hd|exact Hfirst].
Defined.

Lemma C8_setter_frame_witness :
  FastBuilder.builders (Mock.heap Mock.full) !! 1%positive = Some Mock.full
  /\ exists fb' st',
       FastBuilder.Headers 1%positive [mkHeader "Accept" (VString "*/*")]
         (Mock.heap Mock.full)
       = Some (1%positive, st', [])
       /\ FastBuilder.builders st' !! 1%positive = Some fb'
       /\ RequestOptions.Headers (FastBuilder.options fb')
          = [mkHeader "Accept" (VString "*/*")]
       /\ FastBuilder.url fb' = "http://mock/item".
Proof.
  split; [reflexivity|].
  destruct (C8_setter_frame (SetHeaders [mkHeader "Accept" (VString "*/*")])
              1%positive (Mock.heap Mock.full) Mock.full eq_refl)
    as (fb' & st' & Hcall & Hlook & Hholds & Hsame & _).
  exists fb', st'. split; [exact Hcall|]. split; [exact Hlook|].
  split; [exact Hholds|].
  destruct Hsame as (_ & Hurl & _). symmetry. apply Hurl. discriminate.
Defined.

Lemma C9_last_write_wins_witness :
  field_of (SetUri "http://a") = field_of (SetUri "http://b")
  /\ FastBuilder.bind (FastBuilder.Uri 1%positive "http://a")
       (fun b' => FastBuilder.Uri b' "http://b") (Mock.heap Mock.full)
     = FastBuilder.Uri 1%positive "http://b" (Mock.heap Mock.full).
Proof.
  split; [reflexivity|].
  exact (proj1 (C9_last_write_wins (SetUri "http://a") (SetUri "http://b")
                  1%positive (Mock.heap Mock.full) eq_refl)).
Defined.

Lemma C10_no_timeout_no_timeout_error_witness :
  FastBuilder.builders (Mock.heap Mock.refused) !! 1%positive
  = Some Mock.refused
  /\ RequestOptions.Timeout (FastBuilder.options Mock.refused) = 0%Z
  /\ fasthttp.err (FastBuilder.exchange Mock.server Mock.refused)
     = Some (TransportError "dial tcp: connection refused")
  /\ Mock.makeRequest 1%positive (Mock.heap Mock.refused)
     = Some ((None,
              Some (Errorf "request failed: dial tcp: connection refused")),
             Mock.heap Mock.refused, [FastBuilder.sent Mock.refused]).
Proof.
  split; [reflexivity|]. split; [reflexivity|]. split; [reflexivity|].
  exact (proj1 (C10_no_timeout_no_timeout_error Mock.decodeInt Mock.server
                  1%positive (Mock.heap Mock.refused) Mock.refused
                  (TransportError "dial tcp: connection refused")
                  eq_refl eq_refl eq_refl)).
Defined.

(** ** Beyond the claims: allocation, chaining and the receiver *)

Section BuilderFacts.

Context {Dest : Type}.

Local Abbreviation State := (FastBuilder.State Dest).

Lemma Build_at_fresh (st : State) :
  FastBuilder.builders st !! fresh (dom (FastBuilder.builders st)) = None.
Proof. apply not_elem_of_dom. apply is_fresh. Qed.

(** X1. [Build] returns a pointer that held no builder before, puts a
    zero-value builder behind it and leaves every other builder and every
    destination alone; a second [Build] returns a different pointer and does
    not disturb the first builder. *)
Theorem Build_fresh_zero (st : State) :
  exists b st',
    FastBuilder.Build st = Some (b, st', [])
    /\ FastBuilder.builders st !! b = None
    /\ FastBuilder.builders st' !! b = Some FastBuilder.zero
    /\ (forall b', b' <> b ->
          FastBuilder.builders st' !! b' = FastBuilder.builders st !! b')
    /\ FastBuilder.dests st' = FastBuilder.dests st
    /\ exists b2 st2,
         FastBuilder.Build st' = Some (b2, st2, [])
         /\ b2 <> b
         /\ FastBuilder.builders st2 !! b = Some FastBuilder.zero.
Proof.
  unfold FastBuilder.Build.
  do 2 eexists. split; [reflexivity|]. simpl.
  split; [apply Build_at_fresh|].
  split; [apply lookup_insert_eq|].
  split; [intros b' Hne; apply lookup_insert_ne; congruence|].
  split; [reflexivity|].
  do 2 eexists. split; [reflexivity|]. simpl.
  set (b := fresh (dom (FastBuilder.builders st))).
  set (m' := <[b := FastBuilder.zero]> (FastBuilder.builders st)).
  assert (Hin : b ∈ dom m').
  { apply elem_of_dom. exists FastBuilder.zero. apply lookup_insert_eq. }
  assert (Hne : fresh (dom m') <> b).
  { intros Heq. apply (is_fresh (dom m')). rewrite Heq. exact Hin. }
  split; [exact Hne|].
  rewrite lookup_insert_ne; [apply lookup_insert_eq|exact Hne].
Qed.

(** X2. A full chain from [Build] through the six setters never faults,
    calls neither collaborator, and leaves behind the fresh pointer a builder
    with exactly the given configuration and an empty method. *)
Theorem configure_builds (st : State) (u : string) (timeout : Duration)
    (a : Auth) (hs : list Header) (p : option (list byte)) (r : option ptr) :
  exists b st',
    configure u timeout a hs p r st = Some (b, st', [])
    /\ FastBuilder.builders st !! b = None
    /\ FastBuilder.builders st' !! b
       = Some (FastBuilder.mk "" u (RequestOptions.mk timeout p hs a) r)
    /\ (forall b', b' <> b ->
          FastBuilder.builders st' !! b' = FastBuilder.builders st !! b')
    /\ FastBuilder.dests st' = FastBuilder.dests st.
Proof.
  unfold configure, FastBuilder.Build, FastBuilder.Uri, FastBuilder.Timeout,
    FastBuilder.Auth, FastBuilder.Headers, FastBuilder.Payload,
    FastBuilder.Result, FastBuilder.bind, FastBuilder.load, FastBuilder.store,
    FastBuilder.ret.
  simpl. repeat (rewrite lookup_insert_eq; simpl).
  repeat rewrite insert_insert_eq.
  do 2 eexists. split; [reflexivity|]. simpl.
  split; [apply Build_at_fresh|].
  split; [apply lookup_insert_eq|].
  split; [intros b' Hne; apply lookup_insert_ne; congruence|reflexivity].
Qed.

(** X3. Setters of different fields commute: chained in either order they
    fault together or leave the same heap and return the same pointer. *)
Theorem setters_commute (s1 s2 : Setter) (b : ptr) (st : State) :
  field_of s1 <> field_of s2 ->
  FastBuilder.bind (call s1 b) (fun b' => call s2 b') st
  = FastBuilder.bind (call s2 b) (fun b' => call s1 b') st.
Proof.
  intros Hf.
  destruct (FastBuilder.builders st !! b) as [fb|] eqn:Hb.
  - destruct s1, s2; try (exfalso; apply Hf; reflexivity); simpl;
      unfold FastBuilder.Uri, FastBuilder.Timeout, FastBuilder.Auth,
        FastBuilder.Headers, FastBuilder.Payload, FastBuilder.Result,
        FastBuilder.bind, FastBuilder.load, FastBuilder.store,
        FastBuilder.ret;
      rewrite Hb; simpl; rewrite !lookup_insert_eq; simpl;
      rewrite !insert_insert_eq; reflexivity.
  - unfold FastBuilder.bind. rewrite (call_nil s1 b st Hb).
    rewrite (call_nil s2 b st Hb). reflexivity.
Qed.

End BuilderFacts.

Lemma setters_commute_witness :
  field_of (SetUri "http://a") <> field_of (SetTimeout 5)
  /\ FastBuilder.bind (FastBuilder.Uri 1%positive "http://a")
       (fun b' => FastBuilder.Timeout b' 5) (Mock.heap Mock.full)
     = FastBuilder.bind (FastBuilder.Timeout 1%positive 5)
         (fun b' => FastBuilder.Uri b' "http://a") (Mock.heap Mock.full).
Proof.
  split; [discriminate|].
  apply (setters_commute (SetUri "http://a") (SetTimeout 5) 1%positive
           (Mock.heap Mock.full)).
  discriminate.
Defined.

(** ** Beyond the claims: the terminal verbs *)

Lemma prepare_with_method (m : string) (fb : FastBuilder.t) :
  FastBuilder.prepare (with_method m fb)
  = fasthttp.SetMethod m (FastBuilder.prepare fb).
Proof.
  unfold FastBuilder.prepare, with_method, FastBuilder.setPayload. simpl.
  destruct (RequestOptions.payload (FastBuilder.options fb)); reflexivity.
Qed.

Lemma prepare_target (fb : FastBuilder.t) :
  fasthttp.RequestURI (FastBuilder.prepare fb) = FastBuilder.url fb
  /\ fasthttp.Method (FastBuilder.prepare fb) = FastBuilder.method fb.
Proof.
  unfold FastBuilder.prepare, FastBuilder.setPayload.
  destruct (RequestOptions.payload (FastBuilder.options fb)); split;
    reflexivity.
Qed.

Section VerbFacts.

Context {Dest : Type}.
Variable json_Unmarshal : list byte -> Dest -> Dest * option error.
Variable transport :
  fasthttp.Client -> fasthttp.Request -> Duration -> fasthttp.Outcome.

Local Abbreviation makeRequest :=
  (FastBuilder.makeRequest json_Unmarshal transport).
Local Abbreviation verb := (terminal json_Unmarshal transport).
Local Abbreviation exchange := (FastBuilder.exchange transport).
Local Abbreviation State := (FastBuilder.State Dest).

(** the heap once a verb has stored its method name *)
Local Abbreviation stored v b fb st :=
  (FastBuilder.mkState
     (<[b := with_method (verb_name v) fb]> (FastBuilder.builders st))
     (FastBuilder.dests st)).

Lemma verb_live (v : Verb) (b : ptr) (st : State) (fb : FastBuilder.t) :
  FastBuilder.builders st !! b = Some fb ->
  FastBuilder.builders (stored v b fb st) !! b
  = Some (with_method (verb_name v) fb)
  /\ verb v b st = makeRequest b (stored v b fb st).
Proof.
  intros Hb. split; [apply lookup_insert_eq|].
  destruct v; simpl;
    unfold FastBuilder.Get, FastBuilder.Post, FastBuilder.Patch,
      FastBuilder.Delete, FastBuilder.setMethod, FastBuilder.store;
    unfold FastBuilder.bind at 1 2; unfold FastBuilder.load at 1;
    rewrite Hb; unfold with_method; simpl;
    destruct (FastBuilder.makeRequest json_Unmarshal transport b _)
      as [[[r st2] e2]|]; reflexivity.
Qed.

Lemma verb_nil (v : Verb) (b : ptr) (st : State) :
  FastBuilder.builders st !! b = None -> verb v b st = None.
Proof.
  intros Hb.
  destruct v; simpl;
    unfold FastBuilder.Get, FastBuilder.Post, FastBuilder.Patch,
      FastBuilder.Delete, FastBuilder.setMethod, FastBuilder.bind,
      FastBuilder.load;
    rewrite Hb; reflexivity.
Qed.

(** What one [makeRequest] does to the heap and asks of the collaborators. *)
Lemma makeRequest_run (b : ptr) (st : State) (fb : FastBuilder.t) :
  FastBuilder.builders st !! b = Some fb ->
  exists r st' tail,
    makeRequest b st = Some (r, st', FastBuilder.sent fb :: tail)
    /\ FastBuilder.builders st' = FastBuilder.builders st
    /\ (forall p, FastBuilder.result fb <> Some p ->
          FastBuilder.dests st' !! p = FastBuilder.dests st !! p)
    /\ (fasthttp.err (exchange fb) <> None ->
        FastBuilder.dests st' = FastBuilder.dests st /\ tail = [])
    /\ (FastBuilder.result fb = None -> tail = [])
    /\ (forall dest,
          fasthttp.err (exchange fb) = None ->
          FastBuilder.result fb = Some dest ->
          tail = [Unmarshal (fasthttp.Body (fasthttp.resp (exchange fb)))
                    dest]).
Proof.
  intros Hb.
  destruct (fasthttp.err (exchange fb)) as [e|] eqn:He.
  - rewrite (makeRequest_transport_error json_Unmarshal transport b st fb e
               Hb He).
    do 3 eexists. split; [reflexivity|].
    repeat split; intros; congruence.
  - destruct (FastBuilder.result fb) as [dest|] eqn:Hr.
    + destruct (makeRequest_decode json_Unmarshal transport b st fb dest
                  Hb He Hr) as (e & st1 & Hmap & Hrun).
      rewrite Hrun. do 3 eexists. split; [reflexivity|].
      unfold FastBuilder.mapper in Hmap.
      destruct (FastBuilder.dests st !! dest) as [d|] eqn:Hd.
      * destruct (json_Unmarshal _ d) as [d' e'].
        injection Hmap as _ <-. simpl.
        split; [reflexivity|].
        split; [intros p Hp; apply lookup_insert_ne; congruence|].
        split; [intros H; congruence|].
        split; [discriminate|].
        intros dest' _ Hd'. injection Hd' as <-. reflexivity.
      * injection Hmap as _ <-.
        split; [reflexivity|].
        split; [reflexivity|].
        split; [intros H; congruence|].
        split; [discriminate|].
        intros dest' _ Hd'. injection Hd' as <-. reflexivity.
    + rewrite (makeRequest_no_result json_Unmarshal transport b st fb
                 Hb He Hr).
      do 3 eexists. split; [reflexivity|].
      repeat split; intros; congruence.
Qed.

Lemma verb_run (v : Verb) (b : ptr) (st : State) (fb : FastBuilder.t) :
  FastBuilder.builders st !! b = Some fb ->
  let fb' := with_method (verb_name v) fb in
  exists r st' tail,
    verb v b st = Some (r, st', FastBuilder.sent fb' :: tail)
    /\ FastBuilder.builders st'
       = <[b := fb']> (FastBuilder.builders st)
    /\ (forall p, FastBuilder.result fb <> Some p ->
          FastBuilder.dests st' !! p = FastBuilder.dests st !! p)
    /\ (fasthttp.err (exchange fb') <> None ->
        FastBuilder.dests st' = FastBuilder.dests st /\ tail = [])
    /\ (FastBuilder.result fb = None -> tail = [])
    /\ (forall dest,
          fasthttp.err (exchange fb') = None ->
          FastBuilder.result fb = Some dest ->
          tail = [Unmarshal (fasthttp.Body (fasthttp.resp (exchange fb')))
                    dest]).
Proof.
  intros Hb fb'.
  destruct (verb_live v b st fb Hb) as [Hb1 Hrun].
  destruct (makeRequest_run b _ _ Hb1)
    as (r & st' & tail & Hmk & Hbs & Hds & Hfail & Hnone & Hdec).
  exists r, st', tail.
  split; [rewrite Hrun; exact Hmk|].
  split; [exact Hbs|].
  split; [exact Hds|].
  split; [exact Hfail|].
  split; [exact Hnone|exact Hdec].
Qed.

Lemma verb_sends (v : Verb) (b : ptr) (st : State) (fb : FastBuilder.t) :
  FastBuilder.builders st !! b = Some fb ->
  dispatches (verb v b st)
    (FastBuilder.newClient (RequestOptions.Timeout (FastBuilder.options fb)))
    (FastBuilder.prepare (with_method (verb_name v) fb))
    (RequestOptions.Timeout (FastBuilder.options fb)).
Proof.
  intros Hb.
  destruct (verb_live v b st fb Hb) as [Hb1 Hrun].
  rewrite Hrun.
  exact (makeRequest_dispatches json_Unmarshal transport b _ _ Hb1).
Qed.

(** X4. On a pointer that holds no builder every setter and every verb
    faults, and nothing is sent. *)
Theorem nil_receiver_faults (b : ptr) (st : State) :
  FastBuilder.builders st !! b = None ->
  (forall s, call s b st = None)
  /\ (forall v, verb v b st = None)
  /\ (forall v c req t, ~ dispatches (verb v b st) c req t).
Proof.
  intros Hb. split; [intros s; apply call_nil; exact Hb|].
  split; [intros v; apply verb_nil; exact Hb|].
  intros v c req t (r & st' & tail & Hrun & _).
  rewrite (verb_nil v b st Hb) in Hrun. discriminate Hrun.
Qed.

(** X5. Each verb dispatches one request: the one the configuration
    prepares, with the verb's own name as method whatever method the builder
    held before, the configured URL as target, and the configured timeout as
    bound and as both client timeouts. *)
Theorem verb_request (v : Verb) (b : ptr) (st : State) (fb : FastBuilder.t) :
  FastBuilder.builders st !! b = Some fb ->
  exists req,
    dispatches (verb v b st)
      (FastBuilder.newClient
         (RequestOptions.Timeout (FastBuilder.options fb)))
      req (RequestOptions.Timeout (FastBuilder.options fb))
    /\ req = fasthttp.SetMethod (verb_name v) (FastBuilder.prepare fb)
    /\ fasthttp.Method req = verb_name v
    /\ fasthttp.RequestURI req = FastBuilder.url fb
    /\ fasthttp.body req = RequestOptions.payload (FastBuilder.options fb).
Proof.
  intros Hb.
  exists (FastBuilder.prepare (with_method (verb_name v) fb)).
  split; [exact (verb_sends v b st fb Hb)|].
  split; [apply prepare_with_method|].
  destruct (prepare_target (with_method (verb_name v) fb)) as [Huri Hm].
  split; [exact Hm|]. split; [exact Huri|].
  exact (prepare_body (with_method (verb_name v) fb)).
Qed.

(** X6. A verb that has no decoding to do, because no destination is set
    or because the transport call fails, changes one thing in the heap: the
    builder now holds the verb's method name.  Its configuration, every
    other builder and every destination are as before. *)
Theorem verb_frame (v : Verb) (b : ptr) (st : State) (fb : FastBuilder.t) :
  FastBuilder.builders st !! b = Some fb ->
  FastBuilder.result fb = None
  \/ fasthttp.err (exchange (with_method (verb_name v) fb)) <> None ->
  exists r,
    verb v b st
    = Some (r, stored v b fb st,
            [FastBuilder.sent (with_method (verb_name v) fb)]).
Proof.
  intros Hb Hquiet.
  destruct (verb_run v b st fb Hb)
    as (r & st' & tail & Hrun & Hbs & Hds & Hfail & Hnone & _).
  assert (Htail : tail = [] /\ FastBuilder.dests st' = FastBuilder.dests st).
  { destruct Hquiet as [Hr|He].
    - split; [exact (Hnone Hr)|].
      apply map_eq. intros p. apply Hds. rewrite Hr. discriminate.
    - destruct (Hfail He) as [Hd Ht]. split; [exact Ht|exact Hd]. }
  destruct Htail as [-> Hd].
  exists r. rewrite Hrun. destruct st' as [bs ds]. simpl in Hbs, Hd.
  rewrite Hbs, Hd. reflexivity.
Qed.

(** X7. A builder whose verb had no decoding to do (no destination set, or
    the transport call failed) can be used again: any verb run on it
    afterwards dispatches the request it would have dispatched had it run
    first. *)
Theorem verb_reuse (v1 v2 : Verb) (b : ptr) (st : State)
    (fb : FastBuilder.t) :
  FastBuilder.builders st !! b = Some fb ->
  FastBuilder.result fb = None
  \/ fasthttp.err (exchange (with_method (verb_name v1) fb)) <> None ->
  exists r1 st1 evs1 c req t,
    verb v1 b st = Some (r1, st1, evs1)
    /\ dispatches (verb v2 b st) c req t
    /\ dispatches (verb v2 b st1) c req t.
Proof.
  intros Hb _.
  destruct (verb_run v1 b st fb Hb) as (r1 & st1 & tail & Hrun1 & Hbs & _).
  assert (Hb1 : FastBuilder.builders st1 !! b
                = Some (with_method (verb_name v1) fb)).
  { rewrite Hbs. apply lookup_insert_eq. }
  pose proof (verb_sends v2 b st fb Hb) as Hd.
  pose proof (verb_sends v2 b st1 _ Hb1) as Hd1.
  do 6 eexists. split; [exact Hrun1|]. split; [exact Hd|exact Hd1].
Qed.

(** X8. A verb calls the transport exactly once and the decoder at most
    once: never when the transport call failed or no destination is set,
    and otherwise once, after the transport call, on the response body and
    the configured destination. *)
Theorem verb_calls (v : Verb) (b : ptr) (st : State) (fb : FastBuilder.t) :
  FastBuilder.builders st !! b = Some fb ->
  let fb' := with_method (verb_name v) fb in
  exists r st' tail,
    verb v b st = Some (r, st', FastBuilder.sent fb' :: tail)
    /\ (fasthttp.err (exchange fb') <> None -> tail = [])
    /\ (FastBuilder.result fb = None -> tail = [])
    /\ (forall dest,
          fasthttp.err (exchange fb') = None ->
          FastBuilder.result fb = Some dest ->
          tail = [Unmarshal (fasthttp.Body (fasthttp.resp (exchange fb')))
                    dest]).
Proof.
  intros Hb fb'.
  destruct (verb_run v b st fb Hb)
    as (r & st' & tail & Hrun & _ & _ & Hfail & Hnone & Hdec).
  exists r, st', tail.
  split; [exact Hrun|].
  split; [intros He; exact (proj2 (Hfail He))|].
  split; [exact Hnone|exact Hdec].
Qed.

(** X9. A timeout that is zero or negative is handed to the transport as it
    is, and a failure under it is never reported as a timeout: the verb
    returns the generic failure error, whatever time has passed. *)
Theorem nonpositive_timeout_failure (v : Verb) (b : ptr) (st : State)
    (fb : FastBuilder.t) (e : error) :
  FastBuilder.builders st !! b = Some fb ->
  (RequestOptions.Timeout (FastBuilder.options fb) <= 0)%Z ->
  fasthttp.err (exchange (with_method (verb_name v) fb)) = Some e ->
  verb v b st
  = Some ((None, Some (Errorf ("request failed: " ++ Error e))),
          stored v b fb st,
          [DoTimeout
             (FastBuilder.newClient
                (RequestOptions.Timeout (FastBuilder.options fb)))
             (fasthttp.SetMethod (verb_name v) (FastBuilder.prepare fb))
             (RequestOptions.Timeout (FastBuilder.options fb))]).
Proof.
  intros Hb Hle He.
  destruct (verb_live v b st fb Hb) as [Hb1 Hrun].
  rewrite Hrun.
  rewrite (makeRequest_transport_error json_Unmarshal transport b _ _ e
             Hb1 He).
  unfold FastBuilder.sent. rewrite prepare_with_method. simpl.
  destruct (context.isDeadlineExceeded _) eqn:Hx; [|reflexivity].
  apply deadline_exceeded_flag in Hx. destruct Hx as [Hpos _]. lia.
Qed.

End VerbFacts.

(** ** Beyond the claims: the Basic credential *)

Section Base64Facts.

Local Open Scope N_scope.


Lemma lor_add_disjoint (a b k : N) :
  a mod 2 ^ k = 0 -> b < 2 ^ k -> N.lor a b = a + b.
Proof.
  intros Ha Hb.
  assert (Hland : N.land a b = 0).
  { apply N.bits_inj. intros n. rewrite N.land_spec, N.bits_0.
    destruct (N.lt_ge_cases n k) as [Hlt|Hge].
    - assert (Hbit : N.testbit a n = false).
      { rewrite <- (N.mod_pow2_bits_low a k n Hlt), Ha. apply N.bits_0. }
      rewrite Hbit. reflexivity.
    - assert (Hbit : N.testbit b n = false).
      { rewrite <- (N.mod_small b (2 ^ k) Hb).
        apply N.mod_pow2_bits_high. exact Hge. }
      rewrite Hbit. apply andb_false_r. }
  rewrite <- (N.lxor_lor a b Hland). symmetry.
  apply N.add_nocarry_lxor. exact Hland.
Qed.

Ltac euclid := zify; Z.to_euclidean_division_equations; lia.

Lemma pack3 (x y z : N) : y < 256 -> z < 256 ->
  N.lor (N.lor (N.shiftl x 16) (N.shiftl y 8)) z = x * 65536 + y * 256 + z.
Proof.
  intros Hy Hz. rewrite !N.shiftl_mul_pow2.
  change (2 ^ 16) with 65536. change (2 ^ 8) with 256.
  rewrite (lor_add_disjoint (x * 65536) (y * 256) 16);
    [|change (2 ^ 16) with 65536; euclid|change (2 ^ 16) with 65536; lia].
  rewrite (lor_add_disjoint _ z 8);
    [reflexivity|change (2 ^ 8) with 256; euclid|change (2 ^ 8) with 256; lia].
Qed.

Lemma pack2 (x y : N) : y < 256 ->
  N.lor (N.shiftl x 16) (N.shiftl y 8) = x * 65536 + y * 256.
Proof.
  intros Hy. rewrite !N.shiftl_mul_pow2.
  change (2 ^ 16) with 65536. change (2 ^ 8) with 256.
  rewrite (lor_add_disjoint (x * 65536) (y * 256) 16);
    [reflexivity|change (2 ^ 16) with 65536; euclid
    |change (2 ^ 16) with 65536; lia].
Qed.

Lemma quad_add (i0 i1 i2 i3 : N) : i1 < 64 -> i2 < 64 -> i3 < 64 ->
  decode64.quad i0 i1 i2 i3 = i0 * 262144 + i1 * 4096 + i2 * 64 + i3.
Proof.
  intros H1 H2 H3. unfold decode64.quad. rewrite !N.shiftl_mul_pow2.
  change (2 ^ 18) with 262144. change (2 ^ 12) with 4096.
  change (2 ^ 6) with 64.
  rewrite (lor_add_disjoint (i0 * 262144) (i1 * 4096) 18);
    [|change (2 ^ 18) with 262144; euclid|change (2 ^ 18) with 262144; lia].
  rewrite (lor_add_disjoint _ (i2 * 64) 12);
    [|change (2 ^ 12) with 4096; euclid|change (2 ^ 12) with 4096; lia].
  rewrite (lor_add_disjoint _ i3 6);
    [reflexivity|change (2 ^ 6) with 64; euclid|change (2 ^ 6) with 64; lia].
Qed.

Lemma six_bits (val k : N) :
  N.land (N.shiftr val k) 63 = (val / 2 ^ k) mod 64.
Proof.
  rewrite N.shiftr_div_pow2. change 63 with (N.ones 6).
  rewrite N.land_ones. reflexivity.
Qed.

Lemma eight_bits (val k : N) :
  N.land (N.shiftr val k) 255 = (val / 2 ^ k) mod 256.
Proof.
  rewrite N.shiftr_div_pow2. change 255 with (N.ones 8).
  rewrite N.land_ones. reflexivity.
Qed.

Lemma index_enc (i : N) : i < 64 -> decode64.index (base64.enc i) = Some i.
Proof.
  intros Hi.
  destruct i as [|p]; [reflexivity|].
  do 6 (try destruct p as [p|p|]); try reflexivity; exfalso; lia.
Qed.

Lemma index_sextet (val k : N) :
  decode64.index (base64.sextet val k) = Some ((val / 2 ^ k) mod 64).
Proof.
  unfold base64.sextet. rewrite six_bits. apply index_enc.
  apply N.mod_upper_bound. discriminate.
Qed.

Lemma octet_byte (val k : N) (b : byte) :
  (val / 2 ^ k) mod 256 = Byte.to_N b -> decode64.octet val k = b.
Proof.
  intros H. unfold decode64.octet. rewrite eight_bits, H, Byte.of_to_N. reflexivity.
Qed.

Lemma byte_lt (b : byte) : Byte.to_N b < 256.
Proof. pose proof (Byte.to_N_bounded b). lia. Qed.

Lemma Decode_full (c0 c1 c2 c3 : ascii) (rest : string) (i0 i1 i2 i3 : N)
    (l : list byte) :
  decode64.index c0 = Some i0 -> decode64.index c1 = Some i1 -> decode64.index c2 = Some i2 ->
  decode64.index c3 = Some i3 -> decode64.DecodeString rest = Some l ->
  decode64.DecodeString (String c0 (String c1 (String c2 (String c3 rest))))
  = Some (decode64.octet (decode64.quad i0 i1 i2 i3) 16 :: decode64.octet (decode64.quad i0 i1 i2 i3) 8
          :: decode64.octet (decode64.quad i0 i1 i2 i3) 0 :: l).
Proof.
  intros H0 H1 H2 H3 Hl. cbn [decode64.DecodeString].
  rewrite H0, H1, H2, H3, Hl. reflexivity.
Qed.

Lemma group3 (b0 b1 b2 : byte) :
  let val := N.lor (N.lor (N.shiftl (Byte.to_N b0) 16)
                          (N.shiftl (Byte.to_N b1) 8)) (Byte.to_N b2) in
  let q := decode64.quad ((val / 2 ^ 18) mod 64) ((val / 2 ^ 12) mod 64)
             ((val / 2 ^ 6) mod 64) ((val / 2 ^ 0) mod 64) in
  decode64.octet q 16 = b0 /\ decode64.octet q 8 = b1 /\ decode64.octet q 0 = b2.
Proof.
  intros val q.
  pose proof (byte_lt b0) as H0. pose proof (byte_lt b1) as H1.
  pose proof (byte_lt b2) as H2.
  assert (Hval : val = Byte.to_N b0 * 65536 + Byte.to_N b1 * 256
                       + Byte.to_N b2) by (apply pack3; assumption).
  assert (Hq : q = val).
  { subst q. rewrite quad_add by (apply N.mod_upper_bound; discriminate).
    rewrite Hval.
    change (2 ^ 18) with 262144. change (2 ^ 12) with 4096.
    change (2 ^ 6) with 64. change (2 ^ 0) with 1. euclid. }
  rewrite Hq, Hval.
  repeat split; apply octet_byte;
    change (2 ^ 16) with 65536; change (2 ^ 8) with 256;
    change (2 ^ 0) with 1; euclid.
Qed.

Lemma group2 (b0 b1 : byte) :
  let val := N.lor (N.shiftl (Byte.to_N b0) 16) (N.shiftl (Byte.to_N b1) 8) in
  let q := decode64.quad ((val / 2 ^ 18) mod 64) ((val / 2 ^ 12) mod 64)
             ((val / 2 ^ 6) mod 64) 0 in
  decode64.octet q 16 = b0 /\ decode64.octet q 8 = b1.
Proof.
  intros val q.
  pose proof (byte_lt b0) as H0. pose proof (byte_lt b1) as H1.
  assert (Hval : val = Byte.to_N b0 * 65536 + Byte.to_N b1 * 256)
    by (apply pack2; assumption).
  assert (Hq : q = val).
  { subst q.
    rewrite quad_add by (try (apply N.mod_upper_bound; discriminate); lia).
    rewrite Hval.
    change (2 ^ 18) with 262144. change (2 ^ 12) with 4096.
    change (2 ^ 6) with 64. euclid. }
  rewrite Hq, Hval.
  split; apply octet_byte;
    change (2 ^ 16) with 65536; change (2 ^ 8) with 256; euclid.
Qed.

Lemma group1 (b0 : byte) :
  let val := N.shiftl (Byte.to_N b0) 16 in
  let q := decode64.quad ((val / 2 ^ 18) mod 64) ((val / 2 ^ 12) mod 64) 0 0 in
  decode64.octet q 16 = b0.
Proof.
  intros val q.
  pose proof (byte_lt b0) as H0.
  assert (Hval : val = Byte.to_N b0 * 65536).
  { subst val. rewrite N.shiftl_mul_pow2. reflexivity. }
  assert (Hq : q = val).
  { subst q.
    rewrite quad_add by (try (apply N.mod_upper_bound; discriminate); lia).
    rewrite Hval.
    change (2 ^ 18) with 262144. change (2 ^ 12) with 4096. euclid. }
  rewrite Hq, Hval.
  apply octet_byte. change (2 ^ 16) with 65536. euclid.
Qed.

Lemma by_threes (P : list byte -> Prop) :
  P [] -> (forall a, P [a]) -> (forall a b, P [a; b]) ->
  (forall a b c l, P l -> P (a :: b :: c :: l)) ->
  forall l, P l.
Proof.
  intros H0 H1 H2 H3.
  assert (H : forall l, P l /\ (forall a, P (a :: l))
                        /\ (forall a b, P (a :: b :: l))).
  { induction l as [|x l (IH0 & IH1 & IH2)].
    - repeat split; auto.
    - split; [apply IH1|]. split; [intros a; apply IH2|].
      intros a b. apply H3. exact IH0. }
  intros l. apply H.
Qed.

(** Reading back what [EncodeToString] wrote gives the bytes again. *)
Lemma Decode_Encode (src : list byte) :
  decode64.DecodeString (base64.EncodeToString src) = Some src.
Proof.
  induction src as [|b0|b0 b1|b0 b1 b2 rest IH] using by_threes.
  - reflexivity.
  - cbn [base64.EncodeToString decode64.DecodeString].
    rewrite !index_sextet.
    change (decode64.index base64.padChar) with (@None N).
    rewrite Ascii.eqb_refl. cbn [andb decode64.isEmpty].
    rewrite (group1 b0). reflexivity.
  - cbn [base64.EncodeToString decode64.DecodeString].
    rewrite !index_sextet.
    change (decode64.index base64.padChar) with (@None N).
    rewrite Ascii.eqb_refl. cbn [andb decode64.isEmpty].
    destruct (group2 b0 b1) as [-> ->]. reflexivity.
  - cbn [base64.EncodeToString].
    rewrite (Decode_full _ _ _ _ _ _ _ _ _ _
               (index_sextet _ 18) (index_sextet _ 12) (index_sextet _ 6)
               (index_sextet _ 0) IH).
    destruct (group3 b0 b1 b2) as (-> & -> & ->). reflexivity.
Qed.

Lemma Encode_injective (a b : list byte) :
  base64.EncodeToString a = base64.EncodeToString b -> a = b.
Proof.
  intros H. apply (f_equal decode64.DecodeString) in H.
  rewrite !Decode_Encode in H. congruence.
Qed.

End Base64Facts.

(** X10. With a full credential pair the request carries one Authorization
    value from the auth step, "Basic " followed by an encoding that reads
    back, by standard base64, as exactly the bytes of "username:password". *)
Theorem basic_credential_round_trip (fb : FastBuilder.t) :
  let a := RequestOptions.Auth (FastBuilder.options fb) in
  Username a <> "" -> Password a <> "" ->
  exists encoded,
    fasthttp.Header (FastBuilder.prepare fb)
    = (map rendered (RequestOptions.Headers (FastBuilder.options fb))
       ++ [("Authorization", ("Basic " ++ encoded)%string)])%list
    /\ decode64.DecodeString encoded
       = Some (bytes_of_string (Username a ++ ":" ++ Password a)).
Proof.
  intros a Hu Hp.
  exists (base64.EncodeToString
            (bytes_of_string (Username a ++ ":" ++ Password a))).
  split; [|apply Decode_Encode].
  rewrite prepare_Header.
  destruct (authorization_cases a) as (Hbasic & _).
  fold a. rewrite (Hbasic (conj Hu Hp)). reflexivity.
Qed.

Lemma basic_credential_round_trip_witness :
  Username (RequestOptions.Auth (FastBuilder.options Mock.full)) <> ""
  /\ Password (RequestOptions.Auth (FastBuilder.options Mock.full)) <> ""
  /\ exists encoded,
       fasthttp.Header (FastBuilder.prepare Mock.full)
       = [("X-Id", "7"); ("Authorization", "ApiKey 1");
          ("Authorization", "Basic " ++ encoded)]
       /\ decode64.DecodeString encoded = Some (bytes_of_string "u:p").
Proof.
  split; [discriminate|]. split; [discriminate|].
  apply (basic_credential_round_trip Mock.full); discriminate.
Defined.

Lemma append_assoc (s1 s2 s3 : string) :
  (s1 ++ s2) ++ s3 = s1 ++ s2 ++ s3.
Proof.
  induction s1 as [|c s1 IH]; [reflexivity|].
  change (String c ((s1 ++ s2) ++ s3) = String c (s1 ++ s2 ++ s3)).
  rewrite IH. reflexivity.
Qed.

(** X11. The credential pair is joined with a colon and nothing checks the
    username for one: moving a colon-separated piece from the end of the
    username to the front of the password prepares the very same request. *)
Theorem basic_credential_colon (fb : FastBuilder.t) (u p q tok : string) :
  u <> "" -> q <> "" ->
  FastBuilder.prepare (with_auth (mkAuth (u ++ ":" ++ p) q tok) fb)
  = FastBuilder.prepare (with_auth (mkAuth u (p ++ ":" ++ q) tok) fb).
Proof.
  intros Hu Hq.
  assert (Hjoin : (u ++ ":" ++ p) ++ ":" ++ q = u ++ ":" ++ p ++ ":" ++ q).
  { rewrite append_assoc. reflexivity. }
  unfold FastBuilder.prepare, with_auth, FastBuilder.setAuth. simpl.
  rewrite Hjoin.
  destruct u as [|cu u]; [contradiction|].
  destruct q as [|cq q]; [contradiction|].
  destruct p as [|cp p]; reflexivity.
Qed.

Lemma basic_credential_colon_witness :
  "a" <> "" /\ "c" <> ""
  /\ FastBuilder.prepare (with_auth (mkAuth "a:b" "c" "") Mock.full)
     = FastBuilder.prepare (with_auth (mkAuth "a" "b:c" "") Mock.full).
Proof.
  split; [discriminate|]. split; [discriminate|].
  apply (basic_credential_colon Mock.full "a" "b" "c" ""); discriminate.
Defined.

(** X12. A credential pair with an empty username or an empty password is
    dropped without an error: the request is the one prepared with no
    username and no password at all, so only the token, if any, counts. *)
Theorem incomplete_credentials_ignored (fb : FastBuilder.t) :
  let a := RequestOptions.Auth (FastBuilder.options fb) in
  Username a = "" \/ Password a = "" ->
  FastBuilder.prepare fb
  = FastBuilder.prepare (with_auth (mkAuth "" "" (Token a)) fb).
Proof.
  intros a Hinc.
  unfold FastBuilder.prepare, with_auth, FastBuilder.setAuth. simpl.
  fold a.
  assert (Hboth : nonEmpty (Username a) && nonEmpty (Password a) = false).
  { destruct Hinc as [H|H]; rewrite H; simpl;
      [reflexivity|apply andb_false_r]. }
  rewrite Hboth. reflexivity.
Qed.

Lemma incomplete_credentials_ignored_witness :
  (Username (mkAuth "u" "" "t") = "" \/ Password (mkAuth "u" "" "t") = "")
  /\ fasthttp.Header
       (FastBuilder.prepare (with_auth (mkAuth "u" "" "t") Mock.hanging))
     = [("Authorization", "Bearer t")].
Proof.
  split; [right; reflexivity|].
  rewrite (incomplete_credentials_ignored
             (with_auth (mkAuth "u" "" "t") Mock.hanging)
             (or_intror eq_refl)).
  reflexivity.
Defined.

(** X13. The status code is never looked at: against two transports that
    answer alike except for the status code and the rendering of the
    response, a verb makes the same calls, leaves the same heap, returns the
    same error or none, and returns a Response in the same cases. *)
Theorem status_not_inspected {Dest : Type}
    (json_Unmarshal : list byte -> Dest -> Dest * option error)
    (t1 t2 : fasthttp.Client -> fasthttp.Request -> Duration
             -> fasthttp.Outcome)
    (v : Verb) (b : ptr) (st : FastBuilder.State Dest) (fb : FastBuilder.t) :
  FastBuilder.builders st !! b = Some fb ->
  agree_but_status t1 t2 ->
  exists r1 r2 st' evs,
    terminal json_Unmarshal t1 v b st = Some (r1, st', evs)
    /\ terminal json_Unmarshal t2 v b st = Some (r2, st', evs)
    /\ snd r1 = snd r2
    /\ (fst r1 = None <-> fst r2 = None).
Proof.
  intros Hb Hagree.
  destruct (verb_live json_Unmarshal t1 v b st fb Hb) as [Hb1 Hrun1].
  destruct (verb_live json_Unmarshal t2 v b st fb Hb) as [_ Hrun2].
  rewrite Hrun1, Hrun2.
  unfold FastBuilder.makeRequest, FastBuilder.bind, FastBuilder.load,
    FastBuilder.doTimeout, FastBuilder.mapper, FastBuilder.ret.
  rewrite Hb1. cbn [FastBuilder.builders FastBuilder.dests].
  match goal with
  | |- context [t1 ?c ?req ?t] =>
      destruct (Hagree c req t) as (He & Hbody & Hel & Hflag);
      destruct (t1 c req t) as [e1 [code1 line1 lines1 body1] el1 fired1];
      destruct (t2 c req t) as [e2 [code2 line2 lines2 body2] el2 fired2]
  end.
  simpl in He, Hbody, Hel, Hflag. subst e2 body2 el2 fired2. simpl.
  destruct e1 as [e|].
  - destruct (context.isDeadlineExceeded _);
      do 4 eexists; repeat split; reflexivity.
  - destruct (FastBuilder.result fb) as [dest|]; simpl.
    + destruct (FastBuilder.dests st !! dest) as [d|]; simpl.
      * destruct (json_Unmarshal body1 d) as [d' [e|]]; simpl;
          do 4 eexists; repeat split; try reflexivity;
          intros H; discriminate H.
      * do 4 eexists; repeat split; reflexivity.
    + do 4 eexists; repeat split; try reflexivity; intros H; discriminate H.
Qed.

Lemma status_not_inspected_witness :
  FastBuilder.builders (Mock.heap Mock.full) !! 1%positive = Some Mock.full
  /\ agree_but_status Mock.server server_500
  /\ exists r1 r2 st' evs,
       terminal Mock.decodeInt Mock.server POST 1%positive
         (Mock.heap Mock.full) = Some (r1, st', evs)
       /\ terminal Mock.decodeInt server_500 POST 1%positive
            (Mock.heap Mock.full) = Some (r2, st', evs)
       /\ snd r1 = snd r2
       /\ (fst r1 = None <-> fst r2 = None).
Proof.
  assert (Hagree : agree_but_status Mock.server server_500).
  { intros c req t. repeat split. }
  split; [reflexivity|]. split; [exact Hagree|].
  exact (status_not_inspected Mock.decodeInt Mock.server server_500 POST
           1%positive (Mock.heap Mock.full) Mock.full eq_refl Hagree).
Defined.

(** ** The verbs on the mock server *)

Lemma nil_receiver_faults_witness :
  FastBuilder.builders (Mock.heap Mock.full) !! 7%positive = None
  /\ FastBuilder.Uri 7%positive "http://mock/item" (Mock.heap Mock.full)
     = None
  /\ FastBuilder.Get Mock.decodeInt Mock.server 7%positive
       (Mock.heap Mock.full) = None.
Proof.
  split; [reflexivity|].
  destruct (nil_receiver_faults Mock.decodeInt Mock.server 7%positive
              (Mock.heap Mock.full) eq_refl) as (Hset & Hverb & _).
  split; [exact (Hset (SetUri "http://mock/item"))|exact (Hverb GET)].
Defined.

Lemma verb_request_witness :
  FastBuilder.builders (Mock.heap Mock.full) !! 1%positive = Some Mock.full
  /\ exists req,
       dispatches
         (FastBuilder.Delete Mock.decodeInt Mock.server 1%positive
            (Mock.heap Mock.full))
         (FastBuilder.newClient 5000000000) req 5000000000
       /\ fasthttp.Method req = "DELETE"
       /\ fasthttp.RequestURI req = "http://mock/item"
       /\ fasthttp.body req = Some (bytes_of_string "{}").
Proof.
  split; [reflexivity|].
  destruct (verb_request Mock.decodeInt Mock.server DELETE 1%positive
              (Mock.heap Mock.full) Mock.full eq_refl)
    as (req & Hd & _ & Hm & Hu & Hbody).
  exists req. split; [exact Hd|]. split; [exact Hm|].
  split; [exact Hu|exact Hbody].
Defined.

Lemma verb_frame_witness :
  FastBuilder.builders (Mock.heap Mock.keyInHeaders) !! 1%positive
  = Some Mock.keyInHeaders
  /\ FastBuilder.result Mock.keyInHeaders = None
  /\ exists r st',
       FastBuilder.Post Mock.decodeInt Mock.server 1%positive
         (Mock.heap Mock.keyInHeaders)
       = Some (r, st',
               [FastBuilder.sent (with_method "POST" Mock.keyInHeaders)])
       /\ FastBuilder.builders st' !! 1%positive
          = Some (with_method "POST" Mock.keyInHeaders)
       /\ FastBuilder.dests st'
          = FastBuilder.dests (Mock.heap Mock.keyInHeaders).
Proof.
  split; [reflexivity|]. split; [reflexivity|].
  destruct (verb_frame Mock.decodeInt Mock.server POST 1%positive
              (Mock.heap Mock.keyInHeaders) Mock.keyInHeaders eq_refl
              (or_introl eq_refl)) as (r & Hrun).
  exists r. eexists. split; [exact Hrun|]. split; reflexivity.
Defined.

Lemma verb_reuse_witness :
  FastBuilder.builders (Mock.heap Mock.keyInHeaders) !! 1%positive
  = Some Mock.keyInHeaders
  /\ FastBuilder.result Mock.keyInHeaders = None
  /\ exists r1 st1 evs1 c req t,
       FastBuilder.Get Mock.decodeInt Mock.server 1%positive
         (Mock.heap Mock.keyInHeaders) = Some (r1, st1, evs1)
       /\ dispatches
            (FastBuilder.Post Mock.decodeInt Mock.server 1%positive
               (Mock.heap Mock.keyInHeaders)) c req t
       /\ dispatches
            (FastBuilder.Post Mock.decodeInt Mock.server 1%positive st1)
            c req t.
Proof.
  split; [reflexivity|]. split; [reflexivity|].
  exact (verb_reuse Mock.decodeInt Mock.server GET POST 1%positive
           (Mock.heap Mock.keyInHeaders) Mock.keyInHeaders eq_refl
           (or_introl eq_refl)).
Defined.

Lemma verb_calls_witness :
  FastBuilder.builders (Mock.heap Mock.full) !! 1%positive = Some Mock.full
  /\ exists r st' tail,
       FastBuilder.Get Mock.decodeInt Mock.server 1%positive
         (Mock.heap Mock.full)
       = Some (r, st', FastBuilder.sent Mock.full :: tail)
       /\ tail = [Unmarshal (bytes_of_string "42") 2%positive].
Proof.
  split; [reflexivity|].
  destruct (verb_calls Mock.decodeInt Mock.server GET 1%positive
              (Mock.heap Mock.full) Mock.full eq_refl)
    as (r & st' & tail & Hrun & _ & _ & Hdec).
  exists r, st', tail. split; [exact Hrun|].
  exact (Hdec 2%positive eq_refl eq_refl).
Defined.

Lemma nonpositive_timeout_failure_witness :
  let fb := Mock.builder "http://mock/down" (-5) [] Mock.noAuth None None in
  FastBuilder.builders (Mock.heap fb) !! 1%positive = Some fb
  /\ (RequestOptions.Timeout (FastBuilder.options fb) <= 0)%Z
  /\ exists st',
       FastBuilder.Patch Mock.decodeInt Mock.server 1%positive (Mock.heap fb)
       = Some ((None,
                Some (Errorf "request failed: dial tcp: connection refused")),
               st',
               [DoTimeout (FastBuilder.newClient (-5))
                  (fasthttp.SetMethod "PATCH" (FastBuilder.prepare fb))
                  (-5)]).
Proof.
  intros fb.
  split; [reflexivity|]. split; [discriminate|].
  eexists.
  exact (nonpositive_timeout_failure Mock.decodeInt Mock.server PATCH
           1%positive (Mock.heap fb) fb
           (TransportError "dial tcp: connection refused")
           eq_refl ltac:(discriminate) eq_refl).
Defined.
